(** * Third Space Vest mod for Arma Reforger: the event hooks and the
      daemon client, verified against their prose specification.

    The mod is Enforce Script (the [.c] files under [Scripts/Game]).  Each
    hook runs inside the game engine: it asks the engine a few questions
    (who is the local player, what time is it, where is the owner entity),
    keeps at most one [float] field of its own, and calls
    [ThirdSpaceVest_SendEvent], which builds a JSON line and prints it.

    - Enforce Script [float] values are IEEE floats; they are embedded as
      Rocq's primitive floats with the primitive operations and comparisons
      (so NaN, infinities and signed zeros exist, sums are rounded to
      nearest, and [<] is the IEEE comparison).  The engine's format is the
      single precision one and the primitive floats are double precision:
      the formats differ in the number of digits, not in these laws, and
      the concrete runs below use inputs on which both agree.
    - [int] values are embedded as [Z]; no hook does arithmetic on them.
    - Engine natives whose results the scripts only pass along ([Math.Sin],
      [Math.Cos], [Math.Atan2], [vector.Normalize], [float.ToString], ...)
      are the fields of the class [Host].
    - The mutable state is the record [World], threaded explicitly: the
      static fields of [ThirdSpaceTcpClient] and the console written by
      [Print], which all hooks share, and the last-feedback time of one
      component of each throttled class.  These times are private fields
      of component instances (one per character, vehicle and helicopter):
      a statement about several calls says on which components they are
      made. *)

From Stdlib Require Import ZArith List String Ascii Bool Floats DecimalString Lia Ring.
Import ListNotations.

Set Warnings "-inexact-float".

Local Open Scope string_scope.
Local Open Scope float_scope.

(** ** Vectors *)

(** Enforce Script [vector]: three floats, indexed [0], [1], [2]. *)
Record vector : Set := Vector { vec0 : float; vec1 : float; vec2 : float }.

(** [v[i]] *)
Definition vget (v : vector) (i : nat) : float :=
  match i with
  | O => vec0 v
  | S O => vec1 v
  | _ => vec2 v
  end.

(** [v[i] = x] *)
Definition vset (v : vector) (i : nat) (x : float) : vector :=
  match i with
  | O => Vector x (vec1 v) (vec2 v)
  | S O => Vector (vec0 v) x (vec2 v)
  | _ => Vector (vec0 v) (vec1 v) x
  end.

(** [a - b] on vectors, component by component. *)
Definition vsub (a b : vector) : vector :=
  Vector (vec0 a - vec0 b) (vec1 a - vec1 b) (vec2 a - vec2 b).

(** [vector.Dot(a, b)] *)
Definition vector_Dot (a b : vector) : float :=
  vec0 a * vec0 b + vec1 a * vec1 b + vec2 a * vec2 b.

(** ** Engine natives *)

(** The natives of the engine that the scripts call and whose code is not
    part of the mod.  [vector_Normalize v] is the value of [v] after
    [v.Normalize()] (the returned length is never used by the scripts). *)
Class Host : Type := {
  Math_Sin : float -> float;
  Math_Cos : float -> float;
  Math_Atan2 : float -> float -> float;
  Math_DEG2RAD : float;
  Math_RAD2DEG : float;
  Math_Clamp : float -> float -> float -> float;
  vector_Normalize : vector -> vector;
  float_ToString : float -> string
}.

(** ** Strings *)

(** The double quote character (code 34), which the scripts write escaped
    inside their literals. *)
Definition dq : string := String "034"%char EmptyString.

(** [int.ToString()]: the decimal numeral. *)
Definition int_ToString (n : Z) : string :=
  NilZero.string_of_int (Z.to_int n).

(** The argument a placeholder digit selects: ['1'] the first, ... ['9'] the
    ninth; [None] for any other character. *)
Definition placeholder (c : ascii) : option nat :=
  let n := nat_of_ascii c in
  if (Nat.leb 49 n && Nat.leb n 57)%bool then Some (n - 49)%nat else None.

(** [string.Format(fmt, args...)]: every [%N] of [fmt] is replaced by the
    N-th argument; the arguments themselves are not scanned again. *)
Fixpoint string_Format (fmt : string) (args : list string) : string :=
  match fmt with
  | EmptyString => EmptyString
  | String c rest =>
      match rest with
      | String d rest' =>
          if Ascii.eqb c "%"%char then
            match placeholder d with
            | Some k => nth k args EmptyString ++ string_Format rest' args
            | None => String c (string_Format rest args)
            end
          else String c (string_Format rest args)
      | EmptyString => String c EmptyString
      end
  end.

(** ** The world the scripts run in *)

(** What a hook can read and write: the static fields of the client and the
    console, shared by all hooks, and the private field of the component
    instance the hook runs on.  Each character has its own suppression
    component, each vehicle its own simulation and each helicopter its own
    controller; the record holds the field of one instance of each class,
    the one a call under study is made on. *)
Record World : Type := mkWorld {
  (** [ThirdSpaceTcpClient.s_bConnected] *)
  s_bConnected : bool;
  (** [ThirdSpaceTcpClient.s_fLastReconnectAttempt] *)
  s_fLastReconnectAttempt : float;
  (** [m_fLastSuppressionFeedbackTime] of one [SCR_AISuppressionComponent] *)
  m_fLastSuppressionFeedbackTime : float;
  (** [m_fLastCollisionTime] of one [VehicleWheeledSimulation] *)
  m_fLastCollisionTime : float;
  (** [m_fLastRotorFeedbackTime] of one [SCR_HelicopterControllerComponent] *)
  m_fLastRotorFeedbackTime : float;
  (** the lines written by [Print], oldest first *)
  console : list string;
  (** the lines written to the daemon's socket, oldest first; the scripts
      contain no socket write (the send in [SendEvent] is a TODO comment),
      so no operation below extends it *)
  wire : list string;
  (** whether a daemon is listening on [DAEMON_HOST:DAEMON_PORT]; a fact of
      the environment that no script reads *)
  daemonListening : bool
}.

(** Field initialisers of the scripts: every [float] field starts at [0],
    [s_bConnected] at [false]. *)
Definition initialWorld (listening : bool) : World :=
  mkWorld false 0 0 0 0 [] [] listening.

Definition set_s_bConnected (b : bool) (w : World) : World :=
  mkWorld b (s_fLastReconnectAttempt w) (m_fLastSuppressionFeedbackTime w)
    (m_fLastCollisionTime w) (m_fLastRotorFeedbackTime w) (console w) (wire w)
    (daemonListening w).

Definition set_m_fLastSuppressionFeedbackTime (t : float) (w : World) : World :=
  mkWorld (s_bConnected w) (s_fLastReconnectAttempt w) t
    (m_fLastCollisionTime w) (m_fLastRotorFeedbackTime w) (console w) (wire w)
    (daemonListening w).

Definition set_m_fLastCollisionTime (t : float) (w : World) : World :=
  mkWorld (s_bConnected w) (s_fLastReconnectAttempt w)
    (m_fLastSuppressionFeedbackTime w) t (m_fLastRotorFeedbackTime w)
    (console w) (wire w) (daemonListening w).

Definition set_m_fLastRotorFeedbackTime (t : float) (w : World) : World :=
  mkWorld (s_bConnected w) (s_fLastReconnectAttempt w)
    (m_fLastSuppressionFeedbackTime w) (m_fLastCollisionTime w) t
    (console w) (wire w) (daemonListening w).

(** [Print(line)]: appends one line to the console. *)
Definition Print (line : string) (w : World) : World :=
  mkWorld (s_bConnected w) (s_fLastReconnectAttempt w)
    (m_fLastSuppressionFeedbackTime w) (m_fLastCollisionTime w)
    (m_fLastRotorFeedbackTime w) (console w ++ [line]) (wire w)
    (daemonListening w).

(** ** ThirdSpaceTcpClient.c *)

Module ThirdSpaceTcpClient.

Definition DAEMON_HOST : string := "127.0.0.1".
Definition DAEMON_PORT : Z := 5050.
Definition RECONNECT_INTERVAL : float := 5.0.

Section WithHost.
Context {host : Host}.

(** [BuildEventJson]: the text is accumulated with [+=], each piece a
    literal or a [string.Format] of one. *)
Definition BuildEventJson (eventType : string) (angle : float) (damage : Z)
    (intensity : float) : string :=
  let json := "{" in
  let json := json ++ (dq ++ "cmd" ++ dq ++ ":" ++ dq ++ "armareforger_event" ++ dq ++ ",") in
  let json := json ++ string_Format (dq ++ "event" ++ dq ++ ":" ++ dq ++ "%1" ++ dq ++ ",") [eventType] in
  let json := json ++ string_Format (dq ++ "angle" ++ dq ++ ":%1,") [float_ToString angle] in
  let json := json ++ string_Format (dq ++ "damage" ++ dq ++ ":%1") [int_ToString damage] in
  let json :=
    if 0 <? intensity
    then json ++ string_Format ("," ++ dq ++ "intensity" ++ dq ++ ":%1") [float_ToString intensity]
    else json in
  let json := json ++ "}" in
  json.

(** [SendEvent]: builds the payload and logs it.  The body ends there: the
    TCP send is a comment in the source. *)
Definition SendEvent (eventType : string) (angle : float) (damage : Z)
    (intensity : float) (w : World) : World :=
  let json := BuildEventJson eventType angle damage intensity in
  Print (string_Format "[ThirdSpaceVest] Sending event: %1" [json]) w.

End WithHost.

(** [IsConnected] *)
Definition IsConnected (w : World) : bool := s_bConnected w.

(** [TryConnect]: returns the value of [s_bConnected] after the attempt,
    together with the world. *)
Definition TryConnect (w : World) : bool * World :=
  let w := Print "[ThirdSpaceVest] Attempting to connect to daemon..." w in
  let w := set_s_bConnected true w in
  let w :=
    if s_bConnected w
    then Print (string_Format "[ThirdSpaceVest] Connected to daemon at %1:%2"
                  [DAEMON_HOST; int_ToString DAEMON_PORT]) w
    else Print "[ThirdSpaceVest] Failed to connect to daemon" w in
  (s_bConnected w, w).

(** [Disconnect] *)
Definition Disconnect (w : World) : World :=
  let w := set_s_bConnected false w in
  Print "[ThirdSpaceVest] Disconnected from daemon" w.

End ThirdSpaceTcpClient.

(** ** ThirdSpaceVestMod.c *)

(** The global helper [ThirdSpaceVest_SendEvent]. *)
Definition ThirdSpaceVest_SendEvent {host : Host} (eventType : string)
    (angle : float) (damage : Z) (intensity : float) (w : World) : World :=
  ThirdSpaceTcpClient.SendEvent eventType angle damage intensity w.

(** ** What a hook can ask the engine *)

(** [ECompartmentType] *)
Inductive ECompartmentType : Set := PILOT | TURRET | CARGO.

Definition ECompartmentType_eqb (a b : ECompartmentType) : bool :=
  match a, b with
  | PILOT, PILOT | TURRET, TURRET | CARGO, CARGO => true
  | _, _ => false
  end.

(** [BaseCompartmentSlot] *)
Record BaseCompartmentSlot : Set := { slot_GetType : ECompartmentType }.

(** [CompartmentAccessComponent]: [GetVehicle()] is kept as the identity of
    the vehicle entity (all the scripts do with it is compare it), and
    [GetCompartment()] may be null. *)
Record CompartmentAccessComponent : Set := {
  GetVehicle : option positive;
  GetCompartment : option BaseCompartmentSlot
}.

(** [IEntity]: its identity (for [==]), [GetOrigin()], [GetYawPitchRoll()]
    and [FindComponent(CompartmentAccessComponent)], null when absent. *)
Record IEntity : Set := {
  entityId : positive;
  GetOrigin : vector;
  GetYawPitchRoll : vector;
  FindCompartmentAccess : option CompartmentAccessComponent
}.

(** [PlayerController]: [GetControlledEntity()] may be null. *)
Record PlayerController : Set := { GetControlledEntity : option IEntity }.

(** [GetGame()]: [GetTime()] and [GetPlayerController()], which may be
    null. *)
Record Game : Set := {
  GetTime : float;
  GetPlayerController : option PlayerController
}.

(** [Contact] *)
Record Contact : Set := {
  GetRelativeNormalVelocityAfter : float;
  GetNormal : vector
}.

(** [a == b] on entity references that may be null. *)
Definition entity_eq (a b : option positive) : bool :=
  match a, b with
  | Some x, Some y => Pos.eqb x y
  | None, None => true
  | _, _ => false
  end.

Definition ref (e : option IEntity) : option positive :=
  option_map entityId e.

(** ** ThirdSpacePlayerDamageHandler.c *)

Module SCR_CharacterDamageManagerComponent.
Section WithHost.
Context {host : Host}.

(** [IsLocalPlayer]; [owner] is [GetOwner()]. *)
Definition IsLocalPlayer (g : Game) (owner : option IEntity) : bool :=
  match owner with
  | None => false
  | Some o =>
      match GetPlayerController g with
      | None => false
      | Some playerController =>
          let controlledEntity := GetControlledEntity playerController in
          entity_eq (ref controlledEntity) (Some (entityId o))
      end
  end.

(** [CalculateDamageAngle] *)
Definition CalculateDamageAngle (owner : option IEntity) (hitPosition : vector)
    : float :=
  match owner with
  | None => 0
  | Some o =>
      let playerPos := GetOrigin o in
      let playerForward := GetYawPitchRoll o in
      let toHit := vsub hitPosition playerPos in
      let toHit := vset toHit 1 0 in
      let toHit := vector_Normalize toHit in
      let playerYaw := vget playerForward 0 in
      let playerDir :=
        Vector (Math_Sin (playerYaw * Math_DEG2RAD)) 0
               (Math_Cos (playerYaw * Math_DEG2RAD)) in
      let dot := vector_Dot playerDir toHit in
      let cross :=
        vget playerDir 0 * vget toHit 2 - vget playerDir 2 * vget toHit 0 in
      let angle := Math_Atan2 cross dot * Math_RAD2DEG in
      let angle := if angle <? 0 then angle + 360 else angle in
      angle
  end.

(** [OnDamage].  [super.OnDamage] is the engine's; [healthScaled] is what
    [GetHealthScaled()] answers after it.  The hook does not look at
    [damageContext] or [type]. *)
Definition OnDamage (g : Game) (owner : option IEntity) (healthScaled : float)
    (damage : Z) (hitPosition : vector) (w : World) : World :=
  if negb (IsLocalPlayer g owner) then w
  else if (damage <=? 0)%Z then w
  else
    let angle := CalculateDamageAngle owner hitPosition in
    let w := ThirdSpaceVest_SendEvent "player_damage" angle damage 0 w in
    if healthScaled <=? 0
    then ThirdSpaceVest_SendEvent "player_death" angle damage 0 w
    else w.

End WithHost.
End SCR_CharacterDamageManagerComponent.

(** ** ThirdSpaceEnvironmentHandler.c *)

Module SCR_ExplosionDamageManagerComponent.
Section WithHost.
Context {host : Host}.

(** [CalculateAngleToPosition] *)
Definition CalculateAngleToPosition (player : IEntity) (targetPos : vector)
    : float :=
  let playerPos := GetOrigin player in
  let playerForward := GetYawPitchRoll player in
  let toTarget := vsub targetPos playerPos in
  let toTarget := vset toTarget 1 0 in
  let toTarget := vector_Normalize toTarget in
  let playerYaw := vget playerForward 0 in
  let playerDir :=
    Vector (Math_Sin (playerYaw * Math_DEG2RAD)) 0
           (Math_Cos (playerYaw * Math_DEG2RAD)) in
  let dot := vector_Dot playerDir toTarget in
  let cross :=
    vget playerDir 0 * vget toTarget 2 - vget playerDir 2 * vget toTarget 0 in
  let angle := Math_Atan2 cross dot * Math_RAD2DEG in
  let angle := if angle <? 0 then angle + 360 else angle in
  angle.

End WithHost.
End SCR_ExplosionDamageManagerComponent.

Module SCR_AISuppressionComponent.

Definition SUPPRESSION_FEEDBACK_INTERVAL : float := 0.5.

Section WithHost.
Context {host : Host}.

(** [IsLocalPlayer] *)
Definition IsLocalPlayer (g : Game) (owner : option IEntity) : bool :=
  match owner with
  | None => false
  | Some o =>
      match GetPlayerController g with
      | None => false
      | Some playerController =>
          entity_eq (ref (GetControlledEntity playerController))
                    (Some (entityId o))
      end
  end.

(** [CalculateAngleToSource] *)
Definition CalculateAngleToSource (player : IEntity) (sourcePos : vector)
    : float :=
  let playerPos := GetOrigin player in
  let playerForward := GetYawPitchRoll player in
  let toSource := vsub sourcePos playerPos in
  let toSource := vset toSource 1 0 in
  let toSource := vector_Normalize toSource in
  let playerYaw := vget playerForward 0 in
  let playerDir :=
    Vector (Math_Sin (playerYaw * Math_DEG2RAD)) 0
           (Math_Cos (playerYaw * Math_DEG2RAD)) in
  let dot := vector_Dot playerDir toSource in
  let cross :=
    vget playerDir 0 * vget toSource 2 - vget playerDir 2 * vget toSource 0 in
  let angle := Math_Atan2 cross dot * Math_RAD2DEG in
  let angle := if angle <? 0 then angle + 360 else angle in
  angle.

(** [OnSuppressionUpdate]; [owner] is [GetOwner()]. *)
Definition OnSuppressionUpdate (g : Game) (owner : option IEntity)
    (suppressionAmount : float) (suppressionSource : vector) (w : World)
    : World :=
  if negb (IsLocalPlayer g owner) then w
  else if suppressionAmount <? 0.1 then w
  else
    let currentTime := GetTime g in
    if currentTime - m_fLastSuppressionFeedbackTime w <? SUPPRESSION_FEEDBACK_INTERVAL
    then w
    else
      let w := set_m_fLastSuppressionFeedbackTime currentTime w in
      match owner with
      | None => w
      | Some o =>
          let angle := CalculateAngleToSource o suppressionSource in
          let intensity := Math_Clamp (suppressionAmount * 10) 1 10 in
          ThirdSpaceVest_SendEvent "player_suppressed" angle 0 intensity w
      end.

End WithHost.
End SCR_AISuppressionComponent.

(** ** ThirdSpaceVehicleHandler.c *)

Module SCR_VehicleDamageManagerComponent.
Section WithHost.
Context {host : Host}.

(** [IsLocalPlayerInVehicle]; [owner] is [GetOwner()]. *)
Definition IsLocalPlayerInVehicle (g : Game) (owner : option IEntity) : bool :=
  match owner with
  | None => false
  | Some o =>
      match GetPlayerController g with
      | None => false
      | Some playerController =>
          match GetControlledEntity playerController with
          | None => false
          | Some controlledEntity =>
              match FindCompartmentAccess controlledEntity with
              | None => false
              | Some compartment =>
                  let vehicleEntity := GetVehicle compartment in
                  entity_eq vehicleEntity (Some (entityId o))
              end
          end
      end
  end.

(** [CalculateHitAngle] *)
Definition CalculateHitAngle (owner : option IEntity) (hitPosition : vector)
    : float :=
  match owner with
  | None => 0
  | Some o =>
      let vehiclePos := GetOrigin o in
      let vehicleForward := GetYawPitchRoll o in
      let toHit := vsub hitPosition vehiclePos in
      let toHit := vset toHit 1 0 in
      let toHit := vector_Normalize toHit in
      let vehicleYaw := vget vehicleForward 0 in
      let vehicleDir :=
        Vector (Math_Sin (vehicleYaw * Math_DEG2RAD)) 0
               (Math_Cos (vehicleYaw * Math_DEG2RAD)) in
      let dot := vector_Dot vehicleDir toHit in
      let cross :=
        vget vehicleDir 0 * vget toHit 2 - vget vehicleDir 2 * vget toHit 0 in
      let angle := Math_Atan2 cross dot * Math_RAD2DEG in
      let angle := if angle <? 0 then angle + 360 else angle in
      angle
  end.

(** [OnDamage]; [healthScaled] is what [GetHealthScaled()] answers after
    [super.OnDamage]. *)
Definition OnDamage (g : Game) (owner : option IEntity) (healthScaled : float)
    (damage : Z) (hitPosition : vector) (w : World) : World :=
  if negb (IsLocalPlayerInVehicle g owner) then w
  else if (damage <=? 0)%Z then w
  else
    let angle := CalculateHitAngle owner hitPosition in
    let w := ThirdSpaceVest_SendEvent "vehicle_damage" angle damage 0 w in
    if healthScaled <=? 0
    then ThirdSpaceVest_SendEvent "vehicle_explosion" angle 100 0 w
    else w.

End WithHost.
End SCR_VehicleDamageManagerComponent.

Module VehicleWheeledSimulation.

Definition COLLISION_COOLDOWN : float := 0.5.

Section WithHost.
Context {host : Host}.

(** [IsLocalPlayerInVehicle] *)
Definition IsLocalPlayerInVehicle (g : Game) (vehicleEntity : option IEntity)
    : bool :=
  match GetPlayerController g with
  | None => false
  | Some playerController =>
      match GetControlledEntity playerController with
      | None => false
      | Some controlledEntity =>
          match FindCompartmentAccess controlledEntity with
          | None => false
          | Some compartment =>
              entity_eq (GetVehicle compartment) (ref vehicleEntity)
          end
      end
  end.

(** [CalculateImpactAngle] *)
Definition CalculateImpactAngle (vehicle : IEntity) (impactDir : vector)
    : float :=
  let vehicleForward := GetYawPitchRoll vehicle in
  let vehicleYaw := vget vehicleForward 0 in
  let vehicleDir :=
    Vector (Math_Sin (vehicleYaw * Math_DEG2RAD)) 0
           (Math_Cos (vehicleYaw * Math_DEG2RAD)) in
  let impactDir := vset impactDir 1 0 in
  let impactDir := vector_Normalize impactDir in
  let dot := vector_Dot vehicleDir impactDir in
  let cross :=
    vget vehicleDir 0 * vget impactDir 2 - vget vehicleDir 2 * vget impactDir 0 in
  let angle := Math_Atan2 cross dot * Math_RAD2DEG in
  let angle := if angle <? 0 then angle + 360 else angle in
  angle.

(** [OnContact].  The engine hands the hook a vehicle entity [owner]; the
    hook does not look at [other]. *)
Definition OnContact (g : Game) (owner : IEntity) (contact : Contact)
    (w : World) : World :=
  if negb (IsLocalPlayerInVehicle g (Some owner)) then w
  else
    let currentTime := GetTime g in
    if currentTime - m_fLastCollisionTime w <? COLLISION_COOLDOWN then w
    else
      let w := set_m_fLastCollisionTime currentTime w in
      let impactSpeed := GetRelativeNormalVelocityAfter contact in
      let intensity := Math_Clamp (abs impactSpeed / 10.0) 1 10 in
      let impactDir := GetNormal contact in
      let angle := CalculateImpactAngle owner impactDir in
      ThirdSpaceVest_SendEvent "vehicle_collision" angle 0 intensity w.

End WithHost.
End VehicleWheeledSimulation.

Module SCR_HelicopterControllerComponent.

Definition ROTOR_FEEDBACK_INTERVAL : float := 0.2.

Section WithHost.
Context {host : Host}.

(** [GetRotorIntensity] *)
Definition GetRotorIntensity : float := 3.

(** [IsLocalPlayerPilot]; [owner] is [GetOwner()]. *)
Definition IsLocalPlayerPilot (g : Game) (owner : option IEntity) : bool :=
  match owner with
  | None => false
  | Some _ =>
      match GetPlayerController g with
      | None => false
      | Some playerController =>
          match GetControlledEntity playerController with
          | None => false
          | Some controlledEntity =>
              match FindCompartmentAccess controlledEntity with
              | None => false
              | Some compartment =>
                  match GetCompartment compartment with
                  | None => false
                  | Some slot => ECompartmentType_eqb (slot_GetType slot) PILOT
                  end
              end
          end
      end
  end.

(** [OnUpdate]; [engineOn] is what [IsEngineOn()] answers.  The hook does
    not look at [timeSlice]. *)
Definition OnUpdate (g : Game) (owner : option IEntity) (engineOn : bool)
    (w : World) : World :=
  if negb (IsLocalPlayerPilot g owner) then w
  else if negb engineOn then w
  else
    let currentTime := GetTime g in
    if currentTime - m_fLastRotorFeedbackTime w <? ROTOR_FEEDBACK_INTERVAL
    then w
    else
      let w := set_m_fLastRotorFeedbackTime currentTime w in
      let intensity := GetRotorIntensity in
      ThirdSpaceVest_SendEvent "helicopter_rotor" 180 0 intensity w.

End WithHost.
End SCR_HelicopterControllerComponent.

(** ** More engine natives *)

(** The natives that the remaining hooks call: [vector.Distance],
    [string.ToLower] and [string.Contains]. *)
Class HostLibrary : Type := {
  vector_Distance : vector -> vector -> float;
  string_ToLower : string -> string;
  string_Contains : string -> string -> bool
}.

(** An entity that is attached to others: its [GetName()] and the chain
    [GetParent()], [GetParent().GetParent()], ... up to the root of the
    hierarchy (the engine's hierarchy is finite and has no cycle). *)
Record AttachedEntity : Set := {
  GetName : string;
  GetParents : list IEntity
}.

(** [GetParent()], null at the root. *)
Definition GetParent (e : AttachedEntity) : option IEntity :=
  match GetParents e with
  | [] => None
  | p :: _ => Some p
  end.

(** ** ThirdSpaceEnvironmentHandler.c, the hooks without a timer *)

Module SCR_ExplosionDamageManagerComponent_OnExplosion.
Section WithHost.
Context {host : Host} {lib : HostLibrary}.

(** [OnExplosion].  The hook does not look at [explosionRadius] or
    [explosionDamage]. *)
Definition OnExplosion (g : Game) (explosionPos : vector) (w : World) : World :=
  match GetPlayerController g with
  | None => w
  | Some playerController =>
      match GetControlledEntity playerController with
      | None => w
      | Some playerEntity =>
          let playerPos := GetOrigin playerEntity in
          let distance := vector_Distance explosionPos playerPos in
          if 50 <? distance then w
          else
            let intensity := Math_Clamp (10 - distance / 5) 1 10 in
            let angle :=
              SCR_ExplosionDamageManagerComponent.CalculateAngleToPosition
                playerEntity explosionPos in
            ThirdSpaceVest_SendEvent "explosion_nearby" angle 0 intensity w
      end
  end.

End WithHost.
End SCR_ExplosionDamageManagerComponent_OnExplosion.

Module SCR_ProjectileComponent.
Section WithHost.
Context {host : Host} {lib : HostLibrary}.

(** [CalculateAngleToImpact] *)
Definition CalculateAngleToImpact (player : IEntity) (impactPos : vector)
    : float :=
  let playerPos := GetOrigin player in
  let playerForward := GetYawPitchRoll player in
  let toImpact := vsub impactPos playerPos in
  let toImpact := vset toImpact 1 0 in
  let toImpact := vector_Normalize toImpact in
  let playerYaw := vget playerForward 0 in
  let playerDir :=
    Vector (Math_Sin (playerYaw * Math_DEG2RAD)) 0
           (Math_Cos (playerYaw * Math_DEG2RAD)) in
  let dot := vector_Dot playerDir toImpact in
  let cross :=
    vget playerDir 0 * vget toImpact 2 - vget playerDir 2 * vget toImpact 0 in
  let angle := Math_Atan2 cross dot * Math_RAD2DEG in
  let angle := if angle <? 0 then angle + 360 else angle in
  angle.

(** [OnImpact]; [target] may be null.  The hook does not look at
    [impactNormal]. *)
Definition OnImpact (g : Game) (target : option IEntity) (impactPos : vector)
    (w : World) : World :=
  match GetPlayerController g with
  | None => w
  | Some playerController =>
      match GetControlledEntity playerController with
      | None => w
      | Some playerEntity =>
          if entity_eq (ref target) (Some (entityId playerEntity)) then w
          else
            let playerPos := GetOrigin playerEntity in
            let distance := vector_Distance impactPos playerPos in
            if 5 <? distance then w
            else
              let intensity := Math_Clamp (5 - distance) 1 5 in
              let angle := CalculateAngleToImpact playerEntity impactPos in
              ThirdSpaceVest_SendEvent "bullet_impact_near" angle 0 intensity w
      end
  end.

End WithHost.
End SCR_ProjectileComponent.

(** ** ThirdSpacePlayerDamageHandler.c, the healing hook *)

Module SCR_CharacterDamageManagerComponent_OnHeal.
Section WithHost.
Context {host : Host}.

(** [OnHeal]; [owner] is [GetOwner()]. *)
Definition OnHeal (g : Game) (owner : option IEntity) (healAmount : float)
    (w : World) : World :=
  if negb (SCR_CharacterDamageManagerComponent.IsLocalPlayer g owner) then w
  else
    let intensity := Math_Clamp (healAmount / 10.0) 1 10 in
    ThirdSpaceVest_SendEvent "player_heal" 0 0 intensity w.

End WithHost.
End SCR_CharacterDamageManagerComponent_OnHeal.

(** ** ThirdSpaceWeaponHandler.c *)

Module SCR_WeaponComponent.
Section WithHost.
Context {host : Host} {lib : HostLibrary}.

(** [GetWeaponEventType]; [isBaseWeapon] says whether
    [BaseWeaponComponent.Cast(this)] is not null, [owner] is [GetOwner()]. *)
Definition GetWeaponEventType (isBaseWeapon : bool)
    (owner : option AttachedEntity) : string :=
  if negb isBaseWeapon then "weapon_fire_rifle"
  else
    match owner with
    | None => "weapon_fire_rifle"
    | Some weaponEntity =>
        let weaponName := string_ToLower (GetName weaponEntity) in
        if string_Contains weaponName "mg" || string_Contains weaponName "m60" ||
           string_Contains weaponName "m240" || string_Contains weaponName "pkm"
        then "weapon_fire_mg"
        else if string_Contains weaponName "pistol" || string_Contains weaponName "m9" ||
                string_Contains weaponName "glock" || string_Contains weaponName "makarov"
        then "weapon_fire_pistol"
        else if string_Contains weaponName "rpg" || string_Contains weaponName "launcher" ||
                string_Contains weaponName "carl" || string_Contains weaponName "at4"
        then "weapon_fire_launcher"
        else "weapon_fire_rifle"
    end.

(** The loop of [IsLocalPlayerWeapon]: [character] walks up the hierarchy
    until it is null; [chain] is [character] and what is above it. *)
Fixpoint walkUp (g : Game) (chain : list IEntity) : bool :=
  match chain with
  | [] => false
  | character :: above =>
      match GetPlayerController g with
      | Some playerController =>
          let controlledEntity := GetControlledEntity playerController in
          if entity_eq (ref controlledEntity) (Some (entityId character))
          then true
          else walkUp g above
      | None => walkUp g above
      end
  end.

(** [IsLocalPlayerWeapon] *)
Definition IsLocalPlayerWeapon (g : Game) (owner : option AttachedEntity)
    : bool :=
  match owner with
  | None => false
  | Some o => walkUp g (GetParents o)
  end.

(** [OnWeaponFire] *)
Definition OnWeaponFire (g : Game) (isBaseWeapon : bool)
    (owner : option AttachedEntity) (w : World) : World :=
  if negb (IsLocalPlayerWeapon g owner) then w
  else
    let eventType := GetWeaponEventType isBaseWeapon owner in
    ThirdSpaceVest_SendEvent eventType 0 0 0 w.

(** [OnReloadComplete] *)
Definition OnReloadComplete (g : Game) (owner : option AttachedEntity)
    (w : World) : World :=
  if negb (IsLocalPlayerWeapon g owner) then w
  else ThirdSpaceVest_SendEvent "weapon_reload" 0 0 0 w.

End WithHost.
End SCR_WeaponComponent.

Module SCR_GrenadeComponent.
Section WithHost.
Context {host : Host}.

(** [IsLocalPlayerGrenade] *)
Definition IsLocalPlayerGrenade (g : Game) (owner : option AttachedEntity)
    : bool :=
  match owner with
  | None => false
  | Some o =>
      match GetParent o with
      | None => false
      | Some thrower =>
          match GetPlayerController g with
          | None => false
          | Some playerController =>
              entity_eq (ref (GetControlledEntity playerController))
                        (Some (entityId thrower))
          end
      end
  end.

(** [OnThrow] *)
Definition OnThrow (g : Game) (owner : option AttachedEntity) (w : World)
    : World :=
  if negb (IsLocalPlayerGrenade g owner) then w
  else ThirdSpaceVest_SendEvent "grenade_throw" 0 0 0 w.

End WithHost.
End SCR_GrenadeComponent.

(** ** ThirdSpaceVestMod.c, the singleton *)

Module ThirdSpaceVestModClass.

(** The static [s_Instance] (an instance is known by its identity; null is
    [None]) together with the world. *)
Definition State : Type := (option positive * World)%type.

(** [GetInstance] *)
Definition GetInstance (st : State) : option positive := fst st.

(** The constructor, run for the instance [this]. *)
Definition Construct (this : positive) (st : State) : State :=
  (Some this, Print "[ThirdSpaceVest] Mod initialized" (snd st)).

(** The destructor, run for the instance [this]. *)
Definition Destruct (this : positive) (st : State) : State :=
  (None, Print "[ThirdSpaceVest] Mod shutdown" (snd st)).

End ThirdSpaceVestModClass.

(** ** A stand-in engine *)

(** The hooks above take the engine natives from any [Host].  To run them on
    concrete inputs one host is needed; this module builds it from the
    primitive float operations.  Nothing proved about the hooks depends on
    it: the general theorems hold for every [Host]. *)
Module SampleHost.

Definition PI : float := 3.141592653589793.

(** sine and cosine by their Maclaurin polynomials (degree 15 and 14) *)
Definition sin (x : float) : float :=
  let x2 := x * x in
  x * (1 - x2 / 6 * (1 - x2 / 20 * (1 - x2 / 42 * (1 - x2 / 72 *
      (1 - x2 / 110 * (1 - x2 / 156 * (1 - x2 / 210))))))).

Definition cos (x : float) : float :=
  let x2 := x * x in
  1 - x2 / 2 * (1 - x2 / 12 * (1 - x2 / 30 * (1 - x2 / 56 *
      (1 - x2 / 90 * (1 - x2 / 132 * (1 - x2 / 182)))))).

(** arctangent: the argument is halved four times
    ([atan t = 2 atan (t / (1 + sqrt (1 + t^2)))]), then the series *)
Definition halve (t : float) : float := t / (1 + sqrt (1 + t * t)).

Definition atan (t : float) : float :=
  let u := halve (halve (halve (halve t))) in
  let u2 := u * u in
  16 * (u * (1 - u2 * (1 / 3 - u2 * (1 / 5 - u2 * (1 / 7 - u2 * (1 / 9
      - u2 * (1 / 11 - u2 * (1 / 13)))))))).

Definition atan2 (y x : float) : float :=
  if 0 <? x then atan (y / x)
  else if x <? 0 then
    if y <? 0 then atan (y / x) - PI else atan (y / x) + PI
  else if 0 <? y then PI / 2
  else if y <? 0 then - (PI / 2)
  else y.

Definition clamp (v lo hi : float) : float :=
  if v <? lo then lo else if hi <? v then hi else v.

(** the vector divided by its length; for the vector of length zero this
    stand-in has NaN components, which says nothing about the engine's
    [Normalize] there *)
Definition normalize (v : vector) : vector :=
  let len := sqrt (vec0 v * vec0 v + vec1 v * vec1 v + vec2 v * vec2 v) in
  Vector (vec0 v / len) (vec1 v / len) (vec2 v / len).

(** decimal text of a float: the integer part and, when the rest is not
    zero, six decimals (truncated) *)
Definition pad6 (n : Z) : string :=
  let s := int_ToString n in
  match (6 - String.length s)%nat with
  | 0%nat => s
  | 1%nat => "0" ++ s
  | 2%nat => "00" ++ s
  | 3%nat => "000" ++ s
  | 4%nat => "0000" ++ s
  | _ => "00000" ++ s
  end.

Definition toString (x : float) : string :=
  match Prim2SF x with
  | S754_nan => "nan"
  | S754_infinity s => if s then "-inf" else "inf"
  | S754_zero s => if s then "-0" else "0"
  | S754_finite s m e =>
      let micros :=
        if (0 <=? e)%Z then (Zpos m * 2 ^ e * 1000000)%Z
        else (Zpos m * 1000000 / 2 ^ (- e))%Z in
      let whole := (micros / 1000000)%Z in
      let rest := (micros mod 1000000)%Z in
      (if s then "-" else EmptyString) ++ int_ToString whole ++
      (if (rest =? 0)%Z then EmptyString else "." ++ pad6 rest)
  end.


Definition sampleHost : Host := {|
  Math_Sin := sin;
  Math_Cos := cos;
  Math_Atan2 := atan2;
  Math_DEG2RAD := PI / 180;
  Math_RAD2DEG := 180 / PI;
  Math_Clamp := clamp;
  vector_Normalize := normalize;
  float_ToString := toString
|}.


(** A character standing at the origin, facing yaw 0, controlled by the
    local player and seated as pilot of vehicle 2. *)
Definition seat : CompartmentAccessComponent :=
  {| GetVehicle := Some 2%positive;
     GetCompartment := Some {| slot_GetType := PILOT |} |}.

Definition soldier : IEntity :=
  {| entityId := 1%positive;
     GetOrigin := Vector 0 0 0;
     GetYawPitchRoll := Vector 0 0 0;
     FindCompartmentAccess := Some seat |}.

Definition helicopter : IEntity :=
  {| entityId := 2%positive;
     GetOrigin := Vector 0 0 0;
     GetYawPitchRoll := Vector 0 0 0;
     FindCompartmentAccess := None |}.

Definition gameAt (t : float) : Game :=
  {| GetTime := t;
     GetPlayerController := Some {| GetControlledEntity := Some soldier |} |}.

(** A character on foot, in no vehicle, and the game in which the local
    player controls it. *)
Definition infantry : IEntity :=
  {| entityId := 3%positive;
     GetOrigin := Vector 0 0 0;
     GetYawPitchRoll := Vector 0 0 0;
     FindCompartmentAccess := None |}.

Definition onFootAt (t : float) : Game :=
  {| GetTime := t;
     GetPlayerController := Some {| GetControlledEntity := Some infantry |} |}.

Definition bump : Contact :=
  {| GetRelativeNormalVelocityAfter := 25; GetNormal := Vector 1 0 0 |}.


End SampleHost.

(** ** Stand-ins for the other natives *)

(** One [HostLibrary], to run the remaining hooks on concrete inputs. *)
Module SampleLibrary.

(** the length of the difference *)
Definition distance (a b : vector) : float :=
  let d := vsub a b in
  sqrt (vec0 d * vec0 d + vec1 d * vec1 d + vec2 d * vec2 d).

(** lower case of the letters A to Z *)
Definition lowerChar (c : ascii) : ascii :=
  let n := nat_of_ascii c in
  if (Nat.leb 65 n && Nat.leb n 90)%bool then ascii_of_nat (n + 32) else c.

Fixpoint toLower (s : string) : string :=
  match s with
  | EmptyString => EmptyString
  | String c rest => String (lowerChar c) (toLower rest)
  end.

(** whether [part] occurs in [s] *)
Fixpoint contains (s part : string) : bool :=
  if prefix part s then true
  else
    match s with
    | EmptyString => false
    | String _ rest => contains rest part
    end.

Definition sampleLibrary : HostLibrary := {|
  vector_Distance := distance;
  string_ToLower := toLower;
  string_Contains := contains
|}.

(** A machine gun carried by the soldier of [SampleHost], a pistol lying on
    the ground, and a grenade in the soldier's hand. *)
Definition machineGun : AttachedEntity :=
  {| GetName := "Weapon_M249_MG"; GetParents := [SampleHost.soldier] |}.

Definition looseRifle : AttachedEntity :=
  {| GetName := "Rifle_AK74"; GetParents := [] |}.

Definition grenade : AttachedEntity :=
  {| GetName := "Grenade_M67"; GetParents := [SampleHost.soldier] |}.

End SampleLibrary.

(** ** Observing a hook *)

(** A hook is a function [World -> World] once its arguments and the
    engine's answers are fixed.  What it emitted are the lines it added to
    the console (every event is one [Print] in [SendEvent]). *)
Definition sent (hook : World -> World) (w : World) : list string :=
  skipn (List.length (console w)) (console (hook w)).

(** Whether the hook emitted anything. *)
Definition emit (hook : World -> World) (w : World) : bool :=
  match sent hook w with
  | [] => false
  | _ :: _ => true
  end.

(** The console line of one event. *)
Definition eventLine {host : Host} (eventType : string) (angle : float)
    (damage : Z) (intensity : float) : string :=
  string_Format "[ThirdSpaceVest] Sending event: %1"
    [ThirdSpaceTcpClient.BuildEventJson eventType angle damage intensity].

(** The fields of the world other than the console. *)
Definition sameState (w w' : World) : Prop :=
  s_bConnected w' = s_bConnected w /\
  s_fLastReconnectAttempt w' = s_fLastReconnectAttempt w /\
  m_fLastSuppressionFeedbackTime w' = m_fLastSuppressionFeedbackTime w /\
  m_fLastCollisionTime w' = m_fLastCollisionTime w /\
  m_fLastRotorFeedbackTime w' = m_fLastRotorFeedbackTime w /\
  wire w' = wire w /\
  daemonListening w' = daemonListening w.

(** A JSON string literal: the text between two double quotes. *)
Definition quoted (s : string) : string := dq ++ s ++ dq.

(** The wire text of an event up to and including its damage field, as the
    daemon's protocol lays it out. *)
Definition eventText {host : Host} (eventType : string) (angle : float)
    (damage : Z) : string :=
  "{" ++ quoted "cmd" ++ ":" ++ quoted "armareforger_event" ++ "," ++
  quoted "event" ++ ":" ++ quoted eventType ++ "," ++
  quoted "angle" ++ ":" ++ float_ToString angle ++ "," ++
  quoted "damage" ++ ":" ++ int_ToString damage.

(** The optional intensity field. *)
Definition intensityText {host : Host} (intensity : float) : string :=
  "," ++ quoted "intensity" ++ ":" ++ float_ToString intensity.

(** ** Naming the steps of a bearing computation *)

(** The horizontal direction from [pos] to [target] as every bearing
    computation forms it: the difference, its component [1] set to 0, then
    the engine's [Normalize]. *)
Definition direction {host : Host} (pos target : vector) : vector :=
  vector_Normalize (vset (vsub target pos) 1 0).

(** The angle in degrees that the engine's [Atan2] gives for an observer of
    orientation [ypr] and a direction [toHit]: the value of [angle] just
    before [if (angle < 0) angle += 360]. *)
Definition atan2Degrees {host : Host} (ypr toHit : vector) : float :=
  let playerYaw := vget ypr 0 in
  let playerDir :=
    Vector (Math_Sin (playerYaw * Math_DEG2RAD)) 0
           (Math_Cos (playerYaw * Math_DEG2RAD)) in
  let dot := vector_Dot playerDir toHit in
  let cross :=
    vget playerDir 0 * vget toHit 2 - vget playerDir 2 * vget toHit 0 in
  Math_Atan2 cross dot * Math_RAD2DEG.

(** The floats that are numbers: zeros and finite values. *)
Inductive is_number : spec_float -> Prop :=
| number_zero s : is_number (S754_zero s)
| number_finite s m e : is_number (S754_finite s m e).

(** The mantissa of the floats 180 (exponent -45) and 360 (exponent -44). *)
Definition m360 : positive := 6333186975989760.




(** ** Runs of calls *)

(** One call of the mod from the engine or from a script: a hook with its
    arguments and the engine's answers, or an operation of the client. *)
Inductive Call : Type :=
| CallOnSuppressionUpdate (g : Game) (owner : option IEntity)
    (suppressionAmount : float) (suppressionSource : vector)
| CallOnContact (g : Game) (owner : IEntity) (contact : Contact)
| CallOnUpdate (g : Game) (owner : option IEntity) (engineOn : bool)
| CallOnPlayerDamage (g : Game) (owner : option IEntity) (healthScaled : float)
    (damage : Z) (hitPosition : vector)
| CallOnVehicleDamage (g : Game) (owner : option IEntity)
    (healthScaled : float) (damage : Z) (hitPosition : vector)
| CallOnHeal (g : Game) (owner : option IEntity) (healAmount : float)
| CallOnExplosion (g : Game) (explosionPos : vector)
| CallOnImpact (g : Game) (target : option IEntity) (impactPos : vector)
| CallOnWeaponFire (g : Game) (isBaseWeapon : bool)
    (owner : option AttachedEntity)
| CallOnReloadComplete (g : Game) (owner : option AttachedEntity)
| CallOnThrow (g : Game) (owner : option AttachedEntity)
| CallSendEvent (eventType : string) (angle : float) (damage : Z)
    (intensity : float)
| CallTryConnect
| CallDisconnect.

(** What a call does to the world.  A throttled hook reads and writes the
    last-feedback time that the world holds for its class: the call is
    taken to be made on the component that field belongs to
    ([onComponentsOf] below says so of a list of calls). *)
Definition perform {host : Host} {lib : HostLibrary} (c : Call) (w : World)
    : World :=
  match c with
  | CallOnSuppressionUpdate g owner amount source =>
      SCR_AISuppressionComponent.OnSuppressionUpdate g owner amount source w
  | CallOnContact g owner contact =>
      VehicleWheeledSimulation.OnContact g owner contact w
  | CallOnUpdate g owner engineOn =>
      SCR_HelicopterControllerComponent.OnUpdate g owner engineOn w
  | CallOnPlayerDamage g owner healthScaled damage hitPosition =>
      SCR_CharacterDamageManagerComponent.OnDamage
        g owner healthScaled damage hitPosition w
  | CallOnVehicleDamage g owner healthScaled damage hitPosition =>
      SCR_VehicleDamageManagerComponent.OnDamage
        g owner healthScaled damage hitPosition w
  | CallOnHeal g owner healAmount =>
      SCR_CharacterDamageManagerComponent_OnHeal.OnHeal g owner healAmount w
  | CallOnExplosion g explosionPos =>
      SCR_ExplosionDamageManagerComponent_OnExplosion.OnExplosion
        g explosionPos w
  | CallOnImpact g target impactPos =>
      SCR_ProjectileComponent.OnImpact g target impactPos w
  | CallOnWeaponFire g isBaseWeapon owner =>
      SCR_WeaponComponent.OnWeaponFire g isBaseWeapon owner w
  | CallOnReloadComplete g owner =>
      SCR_WeaponComponent.OnReloadComplete g owner w
  | CallOnThrow g owner => SCR_GrenadeComponent.OnThrow g owner w
  | CallSendEvent eventType angle damage intensity =>
      ThirdSpaceVest_SendEvent eventType angle damage intensity w
  | CallTryConnect => snd (ThirdSpaceTcpClient.TryConnect w)
  | CallDisconnect => ThirdSpaceTcpClient.Disconnect w
  end.

(** The calls performed one after the other. *)
Fixpoint run {host : Host} {lib : HostLibrary} (calls : list Call) (w : World)
    : World :=
  match calls with
  | [] => w
  | c :: rest => run rest (perform c w)
  end.

(** The time of a call that belongs to one throttled category. *)
Definition suppressionTime (c : Call) : option float :=
  match c with
  | CallOnSuppressionUpdate g _ _ _ => Some (GetTime g)
  | _ => None
  end.

Definition collisionTime (c : Call) : option float :=
  match c with
  | CallOnContact g _ _ => Some (GetTime g)
  | _ => None
  end.

Definition rotorTime (c : Call) : option float :=
  match c with
  | CallOnUpdate g _ _ => Some (GetTime g)
  | _ => None
  end.

(** The times at which the calls of one category emit, in a run from [w]. *)
Fixpoint emissionTimes {host : Host} {lib : HostLibrary}
    (timeOf : Call -> option float) (calls : list Call) (w : World)
    : list float :=
  match calls with
  | [] => []
  | c :: rest =>
      match timeOf c with
      | Some t =>
          if emit (perform c) w
          then t :: emissionTimes timeOf rest (perform c w)
          else emissionTimes timeOf rest (perform c w)
      | None => emissionTimes timeOf rest (perform c w)
      end
  end.

(** Successive times, each not less than [interval] after the one before,
    the first after [previous]; the test is the one of the hooks. *)
Fixpoint spaced (interval previous : float) (times : list float) : Prop :=
  match times with
  | [] => True
  | t :: rest => (t - previous <? interval) = false /\ spaced interval t rest
  end.

(** What the connection flag is after the calls, from its value before:
    only [TryConnect] and [Disconnect] decide. *)
Fixpoint connectedAfter (calls : list Call) (connected : bool) : bool :=
  match calls with
  | [] => connected
  | CallTryConnect :: rest => connectedAfter rest true
  | CallDisconnect :: rest => connectedAfter rest false
  | _ :: rest => connectedAfter rest connected
  end.

(** Whether the entity the local player controls is one of [chain]. *)
Definition controlsOneOf (g : Game) (chain : list IEntity) : bool :=
  match GetPlayerController g with
  | None => false
  | Some playerController =>
      existsb
        (fun character =>
           entity_eq (ref (GetControlledEntity playerController))
                     (Some (entityId character)))
        chain
  end.

(** The four categories of weapon fire. *)
Definition weaponFireCategories : list string :=
  ["weapon_fire_rifle"; "weapon_fire_mg"; "weapon_fire_pistol";
   "weapon_fire_launcher"].

(** Whether a call goes to one of three given components: the suppression
    component of the entity [character], the simulation of [vehicle], the
    controller of [helicopter].  The last-feedback times are fields of the
    component instances, one per entity, and a [World] holds those of one
    component of each class: a run whose throttled calls all go to these
    three components threads exactly their fields.  The other hooks and the
    client have no field of their own. *)
Definition onComponentsOf (character vehicle helicopter : positive) (c : Call)
    : bool :=
  match c with
  | CallOnSuppressionUpdate _ owner _ _ =>
      entity_eq (ref owner) (Some character)
  | CallOnContact _ owner _ => Pos.eqb (entityId owner) vehicle
  | CallOnUpdate _ owner _ => entity_eq (ref owner) (Some helicopter)
  | _ => true
  end.

(** * Theorems *)

(** ** Floats and strings *)

(** Subtracting the float [0] changes nothing, NaN, infinities and signed
    zeros included. *)
Lemma float_sub_zero (x : float) : x - 0 = x.
Proof.
  apply Prim2SF_inj. rewrite sub_spec.
  change (Prim2SF 0) with (S754_zero false).
  destruct (Prim2SF x) as [[|]| | |]; reflexivity.
Qed.

Lemma append_assoc (a b c : string) : ((a ++ b) ++ c = a ++ (b ++ c))%string.
Proof.
  induction a as [|ch a IH]; simpl; [reflexivity | now rewrite IH].
Qed.

Lemma append_empty_r (a : string) : (a ++ EmptyString = a)%string.
Proof.
  induction a as [|ch a IH]; simpl; [reflexivity | now rewrite IH].
Qed.

Lemma skipn_length_app {A : Type} (l k : list A) :
  skipn (List.length l) (l ++ k)%list = k.
Proof.
  induction l as [|x l IH]; simpl; auto.
Qed.

(** ** The console only grows *)

Section Hooks.
Context {host : Host}.

Lemma console_Print line w : console (Print line w) = (console w ++ [line])%list.
Proof. reflexivity. Qed.

Lemma SendEvent_Print eventType angle damage intensity w :
  ThirdSpaceVest_SendEvent eventType angle damage intensity w =
  Print (eventLine eventType angle damage intensity) w.
Proof.
  unfold ThirdSpaceVest_SendEvent, ThirdSpaceTcpClient.SendEvent, eventLine.
  exact eq_refl.
Qed.

Lemma client_SendEvent_Print eventType angle damage intensity w :
  ThirdSpaceTcpClient.SendEvent eventType angle damage intensity w =
  Print (eventLine eventType angle damage intensity) w.
Proof.
  unfold ThirdSpaceTcpClient.SendEvent, eventLine.
  exact eq_refl.
Qed.

Lemma sent_nothing w : sent (fun w => w) w = [].
Proof.
  unfold sent. rewrite <- (app_nil_r (console w)) at 2.
  apply skipn_length_app.
Qed.

Lemma sent_one (hook : World -> World) line w :
  console (hook w) = (console w ++ [line])%list -> sent hook w = [line].
Proof.
  intros E. unfold sent. rewrite E. apply skipn_length_app.
Qed.

Lemma sent_none (hook : World -> World) w :
  console (hook w) = console w -> sent hook w = [].
Proof.
  intros E. unfold sent. rewrite E.
  rewrite <- (app_nil_r (console w)) at 2. apply skipn_length_app.
Qed.

End Hooks.

(** ** The encoder *)

Section Encoder.
Context {host : Host}.

Lemma Format_event (x : string) :
  string_Format (dq ++ "event" ++ dq ++ ":" ++ dq ++ "%1" ++ dq ++ ",") [x] =
  quoted "event" ++ ":" ++ quoted x ++ ",".
Proof.
  unfold quoted. repeat rewrite append_assoc. simpl. reflexivity.
Qed.

Lemma Format_angle (x : string) :
  string_Format (dq ++ "angle" ++ dq ++ ":%1,") [x] =
  quoted "angle" ++ ":" ++ x ++ ",".
Proof.
  unfold quoted. repeat rewrite append_assoc. simpl. reflexivity.
Qed.

Lemma Format_damage (x : string) :
  string_Format (dq ++ "damage" ++ dq ++ ":%1") [x] =
  quoted "damage" ++ ":" ++ x.
Proof.
  unfold quoted. repeat rewrite append_assoc. simpl.
  rewrite append_empty_r. reflexivity.
Qed.

Lemma Format_intensity (x : string) :
  string_Format ("," ++ dq ++ "intensity" ++ dq ++ ":%1") [x] =
  "," ++ quoted "intensity" ++ ":" ++ x.
Proof.
  unfold quoted. repeat rewrite append_assoc. simpl.
  rewrite append_empty_r. reflexivity.
Qed.

(** C8: for every event type, angle, damage and intensity, [BuildEventJson]
    produces exactly the text
    [{"cmd":"armareforger_event","event":"<type>","angle":<angle>,"damage":<damage>]
    in that order, the [cmd] field always the literal tag, followed by
    [,"intensity":<intensity>] exactly when [0 < intensity], and the closing
    brace. *)
Theorem BuildEventJson_text (eventType : string) (angle : float) (damage : Z)
    (intensity : float) :
  ThirdSpaceTcpClient.BuildEventJson eventType angle damage intensity =
  eventText eventType angle damage ++
  (if 0 <? intensity then intensityText intensity else EmptyString) ++ "}".
Proof.
  unfold ThirdSpaceTcpClient.BuildEventJson, eventText, intensityText.
  rewrite Format_event, Format_angle, Format_damage, Format_intensity.
  generalize (float_ToString angle) (float_ToString intensity)
             (int_ToString damage).
  intros a i d. unfold quoted.
  destruct (0 <? intensity); repeat rewrite append_assoc; reflexivity.
Qed.

End Encoder.

(** ** The daemon client *)

Section Client.
Context {host : Host}.

(** C5: an event submitted while the client is not connected
    ([s_bConnected] is false, the only state the scripts have for
    Disconnected and Connecting) is discarded: [SendEvent] writes nothing to
    the daemon's socket, keeps nothing for later (every field of the state is
    as before, the client still not connected), and returns; all it leaves is
    one diagnostic line on the console. *)
Theorem SendEvent_not_connected (eventType : string) (angle : float)
    (damage : Z) (intensity : float) (w : World) :
  s_bConnected w = false ->
  let w' := ThirdSpaceTcpClient.SendEvent eventType angle damage intensity w in
  wire w' = wire w /\
  s_bConnected w' = false /\
  sameState w w' /\
  console w' = (console w ++ [eventLine eventType angle damage intensity])%list.
Proof.
  intros H. cbv zeta.
  rewrite client_SendEvent_Print.
  generalize (eventLine eventType angle damage intensity). intros line.
  unfold sameState, Print; cbn [wire s_bConnected s_fLastReconnectAttempt
    m_fLastSuppressionFeedbackTime m_fLastCollisionTime
    m_fLastRotorFeedbackTime console daemonListening].
  rewrite H. repeat split.
Qed.

End Client.

(** C6, as the code has it: [TryConnect] never fails.  The attempt is
    simulated (no socket is opened and the environment is not consulted), so
    from every state it marks the client connected, logs the attempt and the
    success, returns [true], and touches nothing else. *)
Theorem TryConnect_always_succeeds (w : World) :
  let r := ThirdSpaceTcpClient.TryConnect w in
  fst r = true /\
  s_bConnected (snd r) = true /\
  console (snd r) =
    (console w ++ ["[ThirdSpaceVest] Attempting to connect to daemon...";
                   "[ThirdSpaceVest] Connected to daemon at 127.0.0.1:5050"])%list /\
  s_fLastReconnectAttempt (snd r) = s_fLastReconnectAttempt w /\
  wire (snd r) = wire w /\
  daemonListening (snd r) = daemonListening w.
Proof.
  cbv zeta. unfold ThirdSpaceTcpClient.TryConnect.
  cbn [set_s_bConnected s_bConnected Print fst snd console
       s_fLastReconnectAttempt wire daemonListening].
  rewrite <- app_assoc. cbn [app].
  repeat split.
Qed.

(** C6, the claim as stated fails: with no daemon listening, [TryConnect]
    from the initial state returns [true] and leaves the client connected. *)
Lemma TryConnect_succeeds_without_daemon :
  daemonListening (initialWorld false) = false /\
  fst (ThirdSpaceTcpClient.TryConnect (initialWorld false)) = true /\
  s_bConnected (snd (ThirdSpaceTcpClient.TryConnect (initialWorld false))) = true.
Proof. vm_compute. repeat split. Qed.

(** ** The throttled hooks *)

Section Debounce.
Context {host : Host}.

Lemma emit_Print line (f hook : World -> World) w :
  console (f w) = console w ->
  hook w = Print line (f w) -> emit hook w = true.
Proof.
  intros Hc Hh. unfold emit. rewrite (sent_one hook line w); [reflexivity|].
  rewrite Hh, console_Print, Hc. reflexivity.
Qed.

Lemma emit_skip (hook : World -> World) w : hook w = w -> emit hook w = false.
Proof.
  intros Hh. unfold emit. rewrite sent_none; [reflexivity|]. now rewrite Hh.
Qed.

(** *** Suppression feedback *)

Lemma suppression_cases g owner amount source w :
  SCR_AISuppressionComponent.OnSuppressionUpdate g owner amount source w = w \/
  exists line,
    SCR_AISuppressionComponent.OnSuppressionUpdate g owner amount source w =
    Print line (set_m_fLastSuppressionFeedbackTime (GetTime g) w).
Proof.
  unfold SCR_AISuppressionComponent.OnSuppressionUpdate.
  destruct (SCR_AISuppressionComponent.IsLocalPlayer g owner) eqn:Hl;
    cbn [negb]; [|now left].
  destruct (amount <? 0.1); [now left|].
  destruct (GetTime g - m_fLastSuppressionFeedbackTime w <?
            SCR_AISuppressionComponent.SUPPRESSION_FEEDBACK_INTERVAL);
    [now left|].
  destruct owner as [o|]; [|discriminate Hl].
  right. rewrite SendEvent_Print. eexists. reflexivity.
Qed.

Lemma suppression_emit g owner amount source w :
  emit (SCR_AISuppressionComponent.OnSuppressionUpdate g owner amount source) w =
  SCR_AISuppressionComponent.IsLocalPlayer g owner && negb (amount <? 0.1) &&
  negb (GetTime g - m_fLastSuppressionFeedbackTime w <?
        SCR_AISuppressionComponent.SUPPRESSION_FEEDBACK_INTERVAL).
Proof.
  destruct (SCR_AISuppressionComponent.IsLocalPlayer g owner) eqn:Hl.
  2:{ apply emit_skip. unfold SCR_AISuppressionComponent.OnSuppressionUpdate.
      rewrite Hl. reflexivity. }
  destruct (amount <? 0.1) eqn:Ha.
  { apply emit_skip. unfold SCR_AISuppressionComponent.OnSuppressionUpdate.
    rewrite Hl, Ha. reflexivity. }
  destruct (GetTime g - m_fLastSuppressionFeedbackTime w <?
            SCR_AISuppressionComponent.SUPPRESSION_FEEDBACK_INTERVAL) eqn:Ht.
  { apply emit_skip. unfold SCR_AISuppressionComponent.OnSuppressionUpdate.
    rewrite Hl, Ha, Ht. reflexivity. }
  destruct owner as [o|]; [|discriminate Hl].
  cbn [andb negb].
  eapply (emit_Print _ (set_m_fLastSuppressionFeedbackTime (GetTime g))).
  - reflexivity.
  - unfold SCR_AISuppressionComponent.OnSuppressionUpdate.
    rewrite Hl, Ha, Ht. cbn [negb]. rewrite SendEvent_Print. reflexivity.
Qed.

(** *** Collisions *)

Lemma collision_cases g owner contact w :
  VehicleWheeledSimulation.OnContact g owner contact w = w \/
  exists line,
    VehicleWheeledSimulation.OnContact g owner contact w =
    Print line (set_m_fLastCollisionTime (GetTime g) w).
Proof.
  unfold VehicleWheeledSimulation.OnContact.
  destruct (VehicleWheeledSimulation.IsLocalPlayerInVehicle g (Some owner));
    cbn [negb]; [|now left].
  destruct (GetTime g - m_fLastCollisionTime w <?
            VehicleWheeledSimulation.COLLISION_COOLDOWN); [now left|].
  right. rewrite SendEvent_Print. eexists. reflexivity.
Qed.

Lemma collision_emit g owner contact w :
  emit (VehicleWheeledSimulation.OnContact g owner contact) w =
  VehicleWheeledSimulation.IsLocalPlayerInVehicle g (Some owner) &&
  negb (GetTime g - m_fLastCollisionTime w <?
        VehicleWheeledSimulation.COLLISION_COOLDOWN).
Proof.
  destruct (VehicleWheeledSimulation.IsLocalPlayerInVehicle g (Some owner)) eqn:Hl.
  2:{ apply emit_skip. unfold VehicleWheeledSimulation.OnContact.
      rewrite Hl. reflexivity. }
  destruct (GetTime g - m_fLastCollisionTime w <?
            VehicleWheeledSimulation.COLLISION_COOLDOWN) eqn:Ht.
  { apply emit_skip. unfold VehicleWheeledSimulation.OnContact.
    rewrite Hl, Ht. reflexivity. }
  cbn [andb negb].
  eapply (emit_Print _ (set_m_fLastCollisionTime (GetTime g))).
  - reflexivity.
  - unfold VehicleWheeledSimulation.OnContact.
    rewrite Hl, Ht. cbn [negb]. rewrite SendEvent_Print. reflexivity.
Qed.

(** *** Rotor feedback *)

Lemma rotor_cases g owner engineOn w :
  SCR_HelicopterControllerComponent.OnUpdate g owner engineOn w = w \/
  exists line,
    SCR_HelicopterControllerComponent.OnUpdate g owner engineOn w =
    Print line (set_m_fLastRotorFeedbackTime (GetTime g) w).
Proof.
  unfold SCR_HelicopterControllerComponent.OnUpdate.
  destruct (SCR_HelicopterControllerComponent.IsLocalPlayerPilot g owner);
    cbn [negb]; [|now left].
  destruct engineOn; cbn [negb]; [|now left].
  destruct (GetTime g - m_fLastRotorFeedbackTime w <?
            SCR_HelicopterControllerComponent.ROTOR_FEEDBACK_INTERVAL);
    [now left|].
  right. rewrite SendEvent_Print. eexists. reflexivity.
Qed.

Lemma rotor_emit g owner engineOn w :
  emit (SCR_HelicopterControllerComponent.OnUpdate g owner engineOn) w =
  SCR_HelicopterControllerComponent.IsLocalPlayerPilot g owner && engineOn &&
  negb (GetTime g - m_fLastRotorFeedbackTime w <?
        SCR_HelicopterControllerComponent.ROTOR_FEEDBACK_INTERVAL).
Proof.
  destruct (SCR_HelicopterControllerComponent.IsLocalPlayerPilot g owner) eqn:Hl.
  2:{ apply emit_skip. unfold SCR_HelicopterControllerComponent.OnUpdate.
      rewrite Hl. reflexivity. }
  destruct engineOn.
  2:{ apply emit_skip. unfold SCR_HelicopterControllerComponent.OnUpdate.
      rewrite Hl. reflexivity. }
  destruct (GetTime g - m_fLastRotorFeedbackTime w <?
            SCR_HelicopterControllerComponent.ROTOR_FEEDBACK_INTERVAL) eqn:Ht.
  { apply emit_skip. unfold SCR_HelicopterControllerComponent.OnUpdate.
    rewrite Hl, Ht. reflexivity. }
  cbn [andb negb].
  eapply (emit_Print _ (set_m_fLastRotorFeedbackTime (GetTime g))).
  - reflexivity.
  - unfold SCR_HelicopterControllerComponent.OnUpdate.
    rewrite Hl, Ht. cbn [negb]. rewrite SendEvent_Print. reflexivity.
Qed.

End Debounce.

(** ** Debounce windows *)

Section DebounceClaims.
Context {host : Host}.

(** C4, as the code has it: for an event that passes the other tests of its
    hook (suppression: the owner is the local player's character and the
    amount is not below 0.1; collision: the local player sits in the
    vehicle; rotor: the local player sits in a pilot seat and the engine is
    on), the first check of the category emits exactly when the arrival time
    is not below the category's minimum interval (0.5 for suppression and
    for collisions, 0.2 for rotor feedback).  The last-emission time is a
    field that starts at 0, so the window is also enforced against time 0
    and an earlier first event is dropped.  Each category stands under the
    tests of its own hook only. *)
Theorem first_check_emits_after_interval (t : float)
    (pc : option PlayerController) (owner heli : option IEntity)
    (vehicle : IEntity) (amount : float) (source : vector) (contact : Contact)
    (listening : bool) :
  let game := {| GetTime := t; GetPlayerController := pc |} in
  let w0 := initialWorld listening in
  (SCR_AISuppressionComponent.IsLocalPlayer game owner = true ->
   (amount <? 0.1) = false ->
   emit (SCR_AISuppressionComponent.OnSuppressionUpdate game owner amount source)
        w0 = negb (t <? 0.5)) /\
  (VehicleWheeledSimulation.IsLocalPlayerInVehicle game (Some vehicle) = true ->
   emit (VehicleWheeledSimulation.OnContact game vehicle contact) w0
     = negb (t <? 0.5)) /\
  (SCR_HelicopterControllerComponent.IsLocalPlayerPilot game heli = true ->
   emit (SCR_HelicopterControllerComponent.OnUpdate game heli true) w0
     = negb (t <? 0.2)).
Proof.
  cbv zeta. split; [|split].
  - intros Hl Ha. rewrite suppression_emit, Hl, Ha.
    cbn [andb negb GetTime initialWorld m_fLastSuppressionFeedbackTime].
    rewrite float_sub_zero. reflexivity.
  - intros Hv. rewrite collision_emit, Hv.
    cbn [andb negb GetTime initialWorld m_fLastCollisionTime].
    rewrite float_sub_zero. reflexivity.
  - intros Hp. rewrite rotor_emit, Hp.
    cbn [andb negb GetTime initialWorld m_fLastRotorFeedbackTime].
    rewrite float_sub_zero. reflexivity.
Qed.

(** C3, as the code has it: with the interval 0.5, three checks of one
    category at times 0.0, 0.3 and 0.6 from the initial state give
    emit=false, emit=false, emit=true (the first two fall inside the window
    that starts at time 0), for events that pass the other tests of their
    hook: suppression feedback of the local player's character with an
    amount not below 0.1, and collisions of the vehicle the local player
    sits in.  Each category stands under the tests of its own hook only. *)
Theorem three_checks (pc : option PlayerController) (owner : option IEntity)
    (vehicle : IEntity) (amount : float) (source : vector) (contact : Contact)
    (listening : bool) :
  let game t := {| GetTime := t; GetPlayerController := pc |} in
  let suppression t :=
    SCR_AISuppressionComponent.OnSuppressionUpdate (game t) owner amount source in
  let collision t :=
    VehicleWheeledSimulation.OnContact (game t) vehicle contact in
  let w0 := initialWorld listening in
  (SCR_AISuppressionComponent.IsLocalPlayer (game 0) owner = true ->
   (amount <? 0.1) = false ->
   (emit (suppression 0.0) w0,
    emit (suppression 0.3) (suppression 0.0 w0),
    emit (suppression 0.6) (suppression 0.3 (suppression 0.0 w0)))
     = (false, false, true)) /\
  (VehicleWheeledSimulation.IsLocalPlayerInVehicle (game 0) (Some vehicle) = true ->
   (emit (collision 0.0) w0,
    emit (collision 0.3) (collision 0.0 w0),
    emit (collision 0.6) (collision 0.3 (collision 0.0 w0)))
     = (false, false, true)).
Proof.
  cbv beta zeta. split.
  - intros Hl Ha.
    assert (L : forall t, SCR_AISuppressionComponent.IsLocalPlayer
                  {| GetTime := t; GetPlayerController := pc |} owner = true)
      by (intros t; exact Hl).
    assert (S : forall t, (t - 0 <? 0.5) = true ->
              SCR_AISuppressionComponent.OnSuppressionUpdate
                {| GetTime := t; GetPlayerController := pc |} owner amount
                source (initialWorld listening) = initialWorld listening).
    { intros t Ht. unfold SCR_AISuppressionComponent.OnSuppressionUpdate.
      rewrite L, Ha.
      cbn [negb GetTime initialWorld m_fLastSuppressionFeedbackTime].
      unfold SCR_AISuppressionComponent.SUPPRESSION_FEEDBACK_INTERVAL.
      rewrite Ht. reflexivity. }
    rewrite (S 0.0), (S 0.3) by reflexivity.
    rewrite !suppression_emit, !L, Ha. reflexivity.
  - intros Hv.
    assert (V : forall t, VehicleWheeledSimulation.IsLocalPlayerInVehicle
                  {| GetTime := t; GetPlayerController := pc |} (Some vehicle)
                  = true)
      by (intros t; exact Hv).
    assert (C : forall t, (t - 0 <? 0.5) = true ->
              VehicleWheeledSimulation.OnContact
                {| GetTime := t; GetPlayerController := pc |} vehicle contact
                (initialWorld listening) = initialWorld listening).
    { intros t Ht. unfold VehicleWheeledSimulation.OnContact.
      rewrite V. cbn [negb GetTime initialWorld m_fLastCollisionTime].
      unfold VehicleWheeledSimulation.COLLISION_COOLDOWN.
      rewrite Ht. reflexivity. }
    rewrite (C 0.0), (C 0.3) by reflexivity.
    rewrite !collision_emit, !V. reflexivity.
Qed.

End DebounceClaims.

(** ** Independence of the timers *)

Section Frame.
Context {host : Host}.

Lemma suppression_frame g owner amount source w :
  let w' := SCR_AISuppressionComponent.OnSuppressionUpdate g owner amount source w in
  m_fLastCollisionTime w' = m_fLastCollisionTime w /\
  m_fLastRotorFeedbackTime w' = m_fLastRotorFeedbackTime w.
Proof.
  cbv zeta.
  destruct (suppression_cases g owner amount source w) as [E|[line E]];
    rewrite E; split; reflexivity.
Qed.

Lemma collision_frame g owner contact w :
  let w' := VehicleWheeledSimulation.OnContact g owner contact w in
  m_fLastSuppressionFeedbackTime w' = m_fLastSuppressionFeedbackTime w /\
  m_fLastRotorFeedbackTime w' = m_fLastRotorFeedbackTime w.
Proof.
  cbv zeta.
  destruct (collision_cases g owner contact w) as [E|[line E]];
    rewrite E; split; reflexivity.
Qed.

Lemma rotor_frame g owner engineOn w :
  let w' := SCR_HelicopterControllerComponent.OnUpdate g owner engineOn w in
  m_fLastSuppressionFeedbackTime w' = m_fLastSuppressionFeedbackTime w /\
  m_fLastCollisionTime w' = m_fLastCollisionTime w.
Proof.
  cbv zeta.
  destruct (rotor_cases g owner engineOn w) as [E|[line E]];
    rewrite E; split; reflexivity.
Qed.

(** C9: the timers of distinct categories are independent.  Whatever one
    throttled hook does (suppression feedback, collision, rotor feedback),
    the last-emission times of the other two categories are as before, and
    a following check of either of them decides exactly as it would have
    without it: emitting A never suppresses B. *)
Theorem timers_independent
    (gA gB : Game) (owner owner' heli heli' : option IEntity)
    (vehicle vehicle' : IEntity) (amount amount' : float)
    (source source' : vector) (contact contact' : Contact)
    (engineOn engineOn' : bool) (w : World) :
  let suppressionA :=
    SCR_AISuppressionComponent.OnSuppressionUpdate gA owner amount source in
  let collisionA := VehicleWheeledSimulation.OnContact gA vehicle contact in
  let rotorA := SCR_HelicopterControllerComponent.OnUpdate gA heli engineOn in
  let suppressionB :=
    SCR_AISuppressionComponent.OnSuppressionUpdate gB owner' amount' source' in
  let collisionB := VehicleWheeledSimulation.OnContact gB vehicle' contact' in
  let rotorB := SCR_HelicopterControllerComponent.OnUpdate gB heli' engineOn' in
  (m_fLastCollisionTime (suppressionA w) = m_fLastCollisionTime w /\
   m_fLastRotorFeedbackTime (suppressionA w) = m_fLastRotorFeedbackTime w /\
   emit collisionB (suppressionA w) = emit collisionB w /\
   emit rotorB (suppressionA w) = emit rotorB w) /\
  (m_fLastSuppressionFeedbackTime (collisionA w) = m_fLastSuppressionFeedbackTime w /\
   m_fLastRotorFeedbackTime (collisionA w) = m_fLastRotorFeedbackTime w /\
   emit suppressionB (collisionA w) = emit suppressionB w /\
   emit rotorB (collisionA w) = emit rotorB w) /\
  (m_fLastSuppressionFeedbackTime (rotorA w) = m_fLastSuppressionFeedbackTime w /\
   m_fLastCollisionTime (rotorA w) = m_fLastCollisionTime w /\
   emit suppressionB (rotorA w) = emit suppressionB w /\
   emit collisionB (rotorA w) = emit collisionB w).
Proof.
  cbv zeta.
  rewrite !suppression_emit, !collision_emit, !rotor_emit.
  destruct (suppression_frame gA owner amount source w) as [S1 S2].
  destruct (collision_frame gA vehicle contact w) as [C1 C2].
  destruct (rotor_frame gA heli engineOn w) as [R1 R2].
  cbv zeta in S1, S2, C1, C2, R1, R2.
  rewrite S1, S2, C1, C2, R1, R2.
  repeat split.
Qed.

End Frame.

(** ** The damage hooks *)

Section Damage.
Context {host : Host}.

Lemma sent_two (hook : World -> World) l1 l2 w :
  hook w = Print l2 (Print l1 w) -> sent hook w = [l1; l2].
Proof.
  intros E. unfold sent. rewrite E, !console_Print, <- app_assoc.
  apply skipn_length_app.
Qed.

(** C10: when the damage hook processes a hit with [damage > 0] for the
    local player and the scaled health is then [<= 0], it emits exactly two
    events, [player_damage] and then [player_death], both with the one
    bearing computed from the hit position; the vehicle hook likewise emits
    [vehicle_damage] and then [vehicle_explosion] with one bearing. *)
Theorem damage_then_death (g g' : Game) (owner vehicle : option IEntity)
    (healthScaled healthScaled' : float) (damage damage' : Z)
    (hitPosition hitPosition' : vector) (w : World) :
  SCR_CharacterDamageManagerComponent.IsLocalPlayer g owner = true ->
  (0 < damage)%Z ->
  (healthScaled <=? 0) = true ->
  SCR_VehicleDamageManagerComponent.IsLocalPlayerInVehicle g' vehicle = true ->
  (0 < damage')%Z ->
  (healthScaled' <=? 0) = true ->
  (exists angle,
     angle = SCR_CharacterDamageManagerComponent.CalculateDamageAngle owner hitPosition /\
     sent (SCR_CharacterDamageManagerComponent.OnDamage
             g owner healthScaled damage hitPosition) w =
     [eventLine "player_damage" angle damage 0;
      eventLine "player_death" angle damage 0]) /\
  (exists angle,
     angle = SCR_VehicleDamageManagerComponent.CalculateHitAngle vehicle hitPosition' /\
     sent (SCR_VehicleDamageManagerComponent.OnDamage
             g' vehicle healthScaled' damage' hitPosition') w =
     [eventLine "vehicle_damage" angle damage' 0;
      eventLine "vehicle_explosion" angle 100 0]).
Proof.
  intros Hl Hd Hh Hl' Hd' Hh'.
  apply Z.leb_gt in Hd. apply Z.leb_gt in Hd'.
  split; eexists; (split; [reflexivity|]); apply sent_two.
  - unfold SCR_CharacterDamageManagerComponent.OnDamage.
    rewrite Hl, Hd, Hh. cbn [negb]. rewrite !SendEvent_Print. reflexivity.
  - unfold SCR_VehicleDamageManagerComponent.OnDamage.
    rewrite Hl', Hd', Hh'. cbn [negb]. rewrite !SendEvent_Print. reflexivity.
Qed.

End Damage.

(** ** Runs on the stand-in engine *)

Module Runs.
Import SampleHost.

(** C5 at a concrete input: a rifle shot submitted in the initial state. *)
Lemma SendEvent_not_connected_run :
  let w := initialWorld false in
  let w' := ThirdSpaceTcpClient.SendEvent (host := sampleHost)
              "weapon_fire_rifle" 0 0 0 w in
  wire w' = wire w /\
  s_bConnected w' = false /\
  sameState w w' /\
  console w' =
    (console w ++ [eventLine (host := sampleHost) "weapon_fire_rifle" 0 0 0])%list.
Proof.
  apply (SendEvent_not_connected (host := sampleHost)).
  reflexivity.
Defined.

(** C3, the claim as stated fails: the first of the three checks, at time 0.0
    from the initial state, does not emit; the flags are false, false, true
    and not true, false, true. *)
Lemma three_checks_first_is_dropped :
  let suppression t :=
    SCR_AISuppressionComponent.OnSuppressionUpdate (host := sampleHost)
      (gameAt t) (Some soldier) 0.5 (Vector 0 0 (-5)) in
  let collision t :=
    VehicleWheeledSimulation.OnContact (host := sampleHost)
      (gameAt t) helicopter bump in
  let w0 := initialWorld true in
  (emit (suppression 0.0) w0,
   emit (suppression 0.3) (suppression 0.0 w0),
   emit (suppression 0.6) (suppression 0.3 (suppression 0.0 w0)))
    = (false, false, true) /\
  (emit (collision 0.0) w0,
   emit (collision 0.3) (collision 0.0 w0),
   emit (collision 0.6) (collision 0.3 (collision 0.0 w0)))
    = (false, false, true).
Proof. vm_compute. split; reflexivity. Qed.

(** C3 at a concrete input: suppression of a local player on foot, who sits
    in no vehicle, and a collision of the helicopter the seated soldier is
    in. *)
Lemma three_checks_run :
  let suppression t :=
    SCR_AISuppressionComponent.OnSuppressionUpdate (host := sampleHost)
      (onFootAt t) (Some infantry) 0.25 (Vector 3 0 4) in
  let collision t :=
    VehicleWheeledSimulation.OnContact (host := sampleHost)
      (gameAt t) helicopter bump in
  let w0 := initialWorld false in
  VehicleWheeledSimulation.IsLocalPlayerInVehicle (onFootAt 0) (Some helicopter)
    = false /\
  (emit (suppression 0.0) w0,
   emit (suppression 0.3) (suppression 0.0 w0),
   emit (suppression 0.6) (suppression 0.3 (suppression 0.0 w0)))
    = (false, false, true) /\
  (emit (collision 0.0) w0,
   emit (collision 0.3) (collision 0.0 w0),
   emit (collision 0.6) (collision 0.3 (collision 0.0 w0)))
    = (false, false, true).
Proof.
  cbv zeta. split; [reflexivity|]. split.
  - pose proof (three_checks (host := sampleHost)
                  (Some {| GetControlledEntity := Some infantry |})
                  (Some infantry) helicopter 0.25 (Vector 3 0 4) bump false)
      as H.
    cbv zeta in H. destruct H as [S _]. apply S; reflexivity.
  - pose proof (three_checks (host := sampleHost)
                  (Some {| GetControlledEntity := Some soldier |})
                  (Some soldier) helicopter 0.25 (Vector 3 0 4) bump false)
      as H.
    cbv zeta in H. destruct H as [_ C]. apply C; reflexivity.
Defined.

(** C4, the claim as stated fails: a first event that arrives at time 0.3
    (0.1 for the rotor) is dropped, in each of the three categories. *)
Lemma first_event_dropped :
  let w0 := initialWorld true in
  emit (SCR_AISuppressionComponent.OnSuppressionUpdate (host := sampleHost)
          (gameAt 0.3) (Some soldier) 0.5 (Vector 0 0 (-5))) w0 = false /\
  emit (VehicleWheeledSimulation.OnContact (host := sampleHost)
          (gameAt 0.3) helicopter bump) w0 = false /\
  emit (SCR_HelicopterControllerComponent.OnUpdate (host := sampleHost)
          (gameAt 0.1) (Some helicopter) true) w0 = false.
Proof. vm_compute. repeat split. Qed.

(** C4 at a concrete input: first events at time 0.75; the suppression
    event is of a local player on foot, who is in no vehicle and no pilot. *)
Lemma first_check_emits_after_interval_run :
  let w0 := initialWorld true in
  SCR_HelicopterControllerComponent.IsLocalPlayerPilot
    (onFootAt 0.75) (Some helicopter) = false /\
  emit (SCR_AISuppressionComponent.OnSuppressionUpdate (host := sampleHost)
          (onFootAt 0.75) (Some infantry) 0.5 (Vector 0 0 (-5))) w0
    = negb (0.75 <? 0.5) /\
  emit (VehicleWheeledSimulation.OnContact (host := sampleHost)
          (gameAt 0.75) helicopter bump) w0
    = negb (0.75 <? 0.5) /\
  emit (SCR_HelicopterControllerComponent.OnUpdate (host := sampleHost)
          (gameAt 0.75) (Some helicopter) true) w0
    = negb (0.75 <? 0.2).
Proof.
  cbv zeta. split; [reflexivity|]. split; [|split].
  - pose proof (first_check_emits_after_interval (host := sampleHost) 0.75
                  (Some {| GetControlledEntity := Some infantry |})
                  (Some infantry) (Some helicopter) helicopter 0.5
                  (Vector 0 0 (-5)) bump true) as H.
    cbv zeta in H. destruct H as (S & _ & _). apply S; reflexivity.
  - pose proof (first_check_emits_after_interval (host := sampleHost) 0.75
                  (Some {| GetControlledEntity := Some soldier |})
                  (Some soldier) (Some helicopter) helicopter 0.5
                  (Vector 0 0 (-5)) bump true) as H.
    cbv zeta in H. destruct H as (_ & C & _). apply C; reflexivity.
  - pose proof (first_check_emits_after_interval (host := sampleHost) 0.75
                  (Some {| GetControlledEntity := Some soldier |})
                  (Some soldier) (Some helicopter) helicopter 0.5
                  (Vector 0 0 (-5)) bump true) as H.
    cbv zeta in H. destruct H as (_ & _ & R). apply R; reflexivity.
Defined.

(** C10 at a concrete input: a lethal hit of 20 from behind, and a lethal
    hit of 35 on the vehicle from the right. *)
Lemma damage_then_death_run :
  (exists angle,
     angle = SCR_CharacterDamageManagerComponent.CalculateDamageAngle
               (host := sampleHost) (Some soldier) (Vector 0 0 (-5)) /\
     sent (SCR_CharacterDamageManagerComponent.OnDamage (host := sampleHost)
             (gameAt 12) (Some soldier) 0 20 (Vector 0 0 (-5)))
          (initialWorld true) =
     [eventLine (host := sampleHost) "player_damage" angle 20 0;
      eventLine (host := sampleHost) "player_death" angle 20 0]) /\
  (exists angle,
     angle = SCR_VehicleDamageManagerComponent.CalculateHitAngle
               (host := sampleHost) (Some helicopter) (Vector 5 0 0) /\
     sent (SCR_VehicleDamageManagerComponent.OnDamage (host := sampleHost)
             (gameAt 12) (Some helicopter) (-1) 35 (Vector 5 0 0))
          (initialWorld true) =
     [eventLine (host := sampleHost) "vehicle_damage" angle 35 0;
      eventLine (host := sampleHost) "vehicle_explosion" angle 100 0]).
Proof.
  apply (damage_then_death (host := sampleHost)); reflexivity.
Defined.

End Runs.

(** ** Float arithmetic *)

(** What the bearing claims need of IEEE arithmetic, proved from the
    specification of the primitive floats ([SpecFloat]): how many digits a
    mantissa has, what a right shift and the rounding do to it, and from
    there the sum [a + 360] for [-180 <= a < 0]. *)
Module FloatRounding.
Local Open Scope Z_scope.

Lemma digits2_size p : digits2_pos p = Pos.size p.
Proof. induction p; simpl; congruence. Qed.

Lemma digits2_bounds p :
  2 ^ (Zpos (digits2_pos p) - 1) <= Zpos p < 2 ^ Zpos (digits2_pos p).
Proof.
  rewrite digits2_size.
  pose proof (Pos.size_le p) as Hle. pose proof (Pos.size_gt p) as Hgt.
  apply Pos2Z.pos_le_pos in Hle. apply Pos2Z.pos_lt_pos in Hgt.
  rewrite Pos2Z.inj_pow in Hle, Hgt.
  replace (Zpos (Pos.size p)) with (Z.succ (Zpos (Pos.size p) - 1)) in Hle by lia.
  rewrite Z.pow_succ_r in Hle by lia.
  lia.
Qed.

Lemma digits2_unique p k :
  2 ^ (k - 1) <= Zpos p < 2 ^ k -> Zpos (digits2_pos p) = k.
Proof.
  intros [Hl Hu]. destruct (digits2_bounds p) as [Dl Du].
  set (D := Zpos (digits2_pos p)) in *.
  assert (0 <= k).
  { destruct (Z.le_gt_cases 0 k) as [|Hk]; [assumption|].
    rewrite (Z.pow_neg_r 2 k Hk) in Hu. lia. }
  assert (D - 1 < k).
  { apply (Z.pow_lt_mono_r_iff 2); lia. }
  assert (k - 1 < D).
  { apply (Z.pow_lt_mono_r_iff 2); lia. }
  lia.
Qed.

Lemma shr_1_m mrs : 0 <= shr_m mrs ->
  0 <= shr_m (shr_1 mrs) /\ shr_m (shr_1 mrs) = shr_m mrs / 2.
Proof.
  destruct mrs as [m r s]. cbn [shr_m]. intros H.
  destruct m as [|[p|p|]|p]; cbn [shr_1 shr_m].
  - split; [lia|reflexivity].
  - split; [lia|]. apply Z.div_unique with 1; lia.
  - split; [lia|]. apply Z.div_unique with 0; lia.
  - split; [lia|]. reflexivity.
  - lia.
Qed.

Lemma iter_shr p : forall mrs, 0 <= shr_m mrs ->
  0 <= shr_m (iter_pos shr_1 p mrs) /\
  shr_m (iter_pos shr_1 p mrs) = shr_m mrs / 2 ^ Zpos p.
Proof.
  induction p as [p IH|p IH|]; intros mrs H; cbn [iter_pos].
  - destruct (shr_1_m mrs H) as [H1 E1].
    destruct (IH _ H1) as [H2 E2]. destruct (IH _ H2) as [H3 E3].
    split; [exact H3|]. rewrite E3, E2, E1.
    rewrite !Z.div_div by lia.
    f_equal.
    replace (Zpos p~1) with (Z.succ (Zpos p + Zpos p)) by lia.
    rewrite Z.pow_succ_r, Z.pow_add_r by lia. ring.
  - destruct (IH _ H) as [H2 E2]. destruct (IH _ H2) as [H3 E3].
    split; [exact H3|]. rewrite E3, E2.
    rewrite !Z.div_div by lia.
    f_equal.
    replace (Zpos p~0) with (Zpos p + Zpos p) by lia.
    rewrite Z.pow_add_r by lia. ring.
  - destruct (shr_1_m mrs H) as [H1 E1]. split; [exact H1|].
    rewrite E1. reflexivity.
Qed.

Lemma shr_spec mrs e n : 0 <= n -> 0 <= shr_m mrs ->
  shr_m (fst (shr mrs e n)) = shr_m mrs / 2 ^ n /\ snd (shr mrs e n) = e + n.
Proof.
  intros Hn Hm. destruct n as [|p|p]; cbn [shr fst snd].
  - rewrite Z.div_1_r. lia.
  - destruct (iter_shr p mrs Hm). split; [assumption|reflexivity].
  - lia.
Qed.

Lemma round_nearest_even_bounds q l :
  q <= round_nearest_even q l <= q + 1.
Proof.
  destruct l as [|[| |]]; cbn [round_nearest_even]; try lia.
  destruct (Z.even q); lia.
Qed.

Lemma iter_xO m d : Zpos (Pos.iter xO m d) = Zpos m * 2 ^ Zpos d.
Proof.
  induction d as [|d IH] using Pos.peano_ind.
  - cbn [Pos.iter]. lia.
  - rewrite Pos.iter_succ, Pos2Z.inj_xO, IH, Pos2Z.inj_succ.
    rewrite Z.pow_succ_r by lia. lia.
Qed.

Lemma fexp_normal x : -1074 <= x - 53 -> fexp prec emax x = x - 53.
Proof.
  intros H. unfold fexp, SpecFloat.emin, prec, emax. apply Z.max_l. lia.
Qed.

Lemma round_normal (p : positive) (e : Z) :
  let D := Zpos (digits2_pos p) in
  let n := D - 53 in
  let q := Zpos p / 2 ^ n in
  53 <= D -> -1074 <= e + n -> e + n + 1 <= 971 ->
  exists m' e',
    binary_round_aux prec emax false (Zpos p) e loc_Exact = S754_finite false m' e' /\
    ((e' = e + n /\ q <= Zpos m' <= q + 1 /\ Zpos m' < 2 ^ 53) \/
     (e' = e + n + 1 /\ Zpos m' = 2 ^ 52 /\ q + 1 = 2 ^ 53)).
Proof.
  intros D n q HD Hlo Hhi.
  assert (P52 : 2 ^ 52 = 4503599627370496) by reflexivity.
  assert (P53 : 2 ^ 53 = 9007199254740992) by reflexivity.
  destruct (digits2_bounds p) as [Pl Pu]. fold D in Pl, Pu.
  assert (Hq : 2 ^ 52 <= q < 2 ^ 53).
  { unfold q. split.
    - apply Z.div_le_lower_bound; [lia|].
      rewrite <- Z.pow_add_r by lia. replace (n + 52) with (D - 1) by lia. exact Pl.
    - apply Z.div_lt_upper_bound; [lia|].
      rewrite <- Z.pow_add_r by lia. replace (n + 53) with D by lia. exact Pu. }
  unfold binary_round_aux, shr_fexp.
  cbn [Zdigits2]. fold D.
  rewrite (fexp_normal (D + e)) by lia.
  replace (D + e - 53 - e) with n by lia.
  destruct (shr_spec (shr_record_of_loc (Zpos p) loc_Exact) e n) as [S1 S2];
    [lia | cbn; lia |].
  destruct (shr (shr_record_of_loc (Zpos p) loc_Exact) e n) as [mrs' e'] eqn:Es.
  cbn [fst snd shr_record_of_loc shr_m] in S1, S2. fold q in S1. subst e'.
  pose proof (round_nearest_even_bounds (shr_m mrs') (loc_of_shr_record mrs')) as Hr.
  rewrite S1 in Hr.
  remember (round_nearest_even (shr_m mrs') (loc_of_shr_record mrs')) as r1 eqn:Er.
  rewrite S1 in Er. rewrite <- Er in Hr. clear Er.
  destruct r1 as [|pr|pr]; [lia| |lia].
  destruct (Z.eq_dec (Zpos pr) (2 ^ 53)) as [Hc|Hc].
  - (* carry *)
    assert (Dg : Zpos (digits2_pos pr) = 54).
    { apply digits2_unique. rewrite Hc. split.
      - apply Z.le_refl.
      - apply Z.pow_lt_mono_r; lia. }
    cbn [Zdigits2]. rewrite Dg.
    rewrite (fexp_normal (54 + (e + n))) by lia.
    replace (54 + (e + n) - 53 - (e + n)) with 1 by lia.
    destruct (shr_spec (shr_record_of_loc (Zpos pr) loc_Exact) (e + n) 1) as [T1 T2];
      [lia | cbn; lia |].
    destruct (shr (shr_record_of_loc (Zpos pr) loc_Exact) (e + n) 1) as [mrs'' e''] eqn:Et.
    cbn [fst snd shr_record_of_loc shr_m] in T1, T2. subst e''.
    rewrite Hc in T1. change (2 ^ 53 / 2 ^ 1) with (2 ^ 52) in T1.
    rewrite T1. change (2 ^ 52) with (Zpos 4503599627370496).
    cbv iota beta.
    replace (e + n + 1 <=? emax - prec) with true
      by (symmetry; apply Z.leb_le; unfold emax, prec; lia).
    eexists _, _. split; [reflexivity|]. right. repeat split; lia.
  - assert (Dg : Zpos (digits2_pos pr) = 53).
    { apply digits2_unique. change (53 - 1) with 52. lia. }
    cbn [Zdigits2]. rewrite Dg.
    rewrite (fexp_normal (53 + (e + n))) by lia.
    replace (53 + (e + n) - 53 - (e + n)) with 0 by lia.
    cbn [shr shr_record_of_loc shr_m].
    replace (e + n <=? emax - prec) with true
      by (symmetry; apply Z.leb_le; unfold emax, prec; lia).
    eexists _, _. split; [reflexivity|]. left. repeat split; lia.
Qed.

Lemma bounded_facts m e : bounded prec emax m e = true ->
  Zpos m < 2 ^ 53 /\ -1074 <= e.
Proof.
  unfold bounded, canonical_mantissa. intros H.
  apply andb_true_iff in H. destruct H as [H _]. apply Z.eqb_eq in H.
  unfold fexp, SpecFloat.emin, prec, emax in H.
  destruct (digits2_bounds m) as [_ Hu].
  assert (Zpos (digits2_pos m) <= 53) by lia.
  split; [|lia].
  apply (Z.lt_le_trans _ _ _ Hu). apply Z.pow_le_mono_r; lia.
Qed.

Lemma add_360 (m : positive) (e : Z) :
  bounded prec emax m e = true ->
  (e < -45 \/ (e = -45 /\ Zpos m <= Zpos m360)) ->
  exists m' e',
    SFadd prec emax (S754_finite true m e) (S754_finite false m360 (-44))
      = S754_finite false m' e' /\
    (e' < -44 \/ (e' = -44 /\ Zpos m' <= Zpos m360)).
Proof.
  intros Hb He. destruct (bounded_facts m e Hb) as [Hm Hemin].
  assert (P52 : 2 ^ 52 = 4503599627370496) by reflexivity.
  assert (P53 : 2 ^ 53 = 9007199254740992) by reflexivity.
  assert (P54 : 2 ^ 54 = 18014398509481984) by reflexivity.
  assert (M0 : Zpos m360 = 6333186975989760) by reflexivity.
  unfold SFadd. cbv zeta.
  rewrite Z.min_l by lia.
  unfold shl_align at 1. rewrite Z.sub_diag. cbn [fst cond_Zopp].
  unfold shl_align.
  destruct (e - -44) as [|dp|dp] eqn:Ed; try lia.
  cbn [fst].
  set (d := Zpos dp). assert (Hd : d = -44 - e) by (unfold d; lia).
  assert (Hd1 : 1 <= d) by lia.
  set (X := 2 ^ (d - 1)).
  assert (HX : 1 <= X) by (unfold X; apply (Z.pow_le_mono_r 2 0); lia).
  assert (HX2 : d = 1 \/ 2 <= X).
  { destruct (Z.eq_dec d 1); [now left|right].
    unfold X. apply (Z.pow_le_mono_r 2 1); lia. }
  assert (E2d : 2 ^ d = 2 * X).
  { unfold X. replace d with (Z.succ (d - 1)) at 1 by lia.
    rewrite Z.pow_succ_r by lia. reflexivity. }
  pose proof (iter_xO m360 dp) as EM. fold d in EM. rewrite E2d, M0 in EM.
  set (M := Pos.iter xO m360 dp) in *.
  assert (Hs : 6333186975989760 * X <= - Zpos m + Zpos M
               < 6333186975989760 * (2 * X)).
  { destruct HX2 as [HX2|HX2]; [|lia].
    assert (X = 1) by (unfold X; rewrite HX2; reflexivity). lia. }
  destruct (- Zpos m + Zpos M) as [|p|p] eqn:Ep; [lia| |lia].
  assert (Hp : 6333186975989760 * X <= Zpos p < 6333186975989760 * (2 * X))
    by exact Hs.
  cbn [binary_normalize]. unfold binary_round.
  (* the number of digits of the sum *)
  assert (E51 : 2 ^ (51 + d) = 2 ^ 52 * X).
  { unfold X. rewrite <- Z.pow_add_r by lia. f_equal. lia. }
  assert (E52 : 2 ^ (52 + d) = 2 ^ 53 * X).
  { unfold X. rewrite <- Z.pow_add_r by lia. f_equal. lia. }
  assert (E53 : 2 ^ (53 + d) = 2 ^ 54 * X).
  { unfold X. rewrite <- Z.pow_add_r by lia. f_equal. lia. }
  assert (HD : Zpos (digits2_pos p) = 52 + d \/ Zpos (digits2_pos p) = 53 + d).
  { destruct (Z.lt_ge_cases (Zpos p) (2 ^ (52 + d))) as [Hc|Hc].
    - left. apply digits2_unique. replace (52 + d - 1) with (51 + d) by lia.
      split; [|exact Hc]. rewrite E51. lia.
    - right. apply digits2_unique. replace (53 + d - 1) with (52 + d) by lia.
      split; [exact Hc|]. rewrite E53. lia. }
  set (D := Zpos (digits2_pos p)) in *.
  rewrite (fexp_normal (D + e)) by lia.
  unfold shl_align.
  destruct (D + e - 53 - e) as [|k|k] eqn:Ek; try lia.
  - destruct (round_normal p e) as (m' & e' & R & HR); fold D; try lia.
    rewrite R. exists m', e'. split; [reflexivity|].
    fold D in HR. assert (D = 53) by lia. assert (d = 1) by lia.
    destruct HR as [(He' & _)|(He' & Hm' & _)]; [left; lia|right; lia].
  - destruct (round_normal p e) as (m' & e' & R & HR); fold D; try lia.
    rewrite R. exists m', e'. split; [reflexivity|].
    fold D in HR.
    destruct HD as [HD|HD].
    + destruct HR as [(He' & _)|(He' & Hm' & _)]; [left; lia|right; lia].
    + replace (D - 53) with d in HR by lia.
      assert (Hq : Zpos p / 2 ^ d < 6333186975989760).
      { apply Z.div_lt_upper_bound; [lia|]. rewrite E2d. lia. }
      destruct HR as [(He' & Hm' & _)|(He' & Hm' & Hc)]; [right; lia|lia].
Qed.


End FloatRounding.

Section FloatFacts.
Import FloatRounding.

Lemma SFleb_negative m1 e1 m2 e2 :
  SFleb (S754_finite true m1 e1) (S754_finite true m2 e2) = true ->
  (e2 < e1 \/ (e2 = e1 /\ Zpos m2 <= Zpos m1))%Z.
Proof.
  unfold SFleb, SFcompare.
  change (PosDef.Pos.compare_cont Eq m1 m2) with (Pos.compare m1 m2).
  destruct (Z.compare_spec e1 e2) as [H|H|H];
    destruct (Pos.compare_spec m1 m2) as [H'|H'|H'];
    cbn [CompOpp]; intros Hc; try discriminate Hc; subst; lia.
Qed.

Lemma SFleb_positive m1 e1 m2 e2 :
  SFleb (S754_finite false m1 e1) (S754_finite false m2 e2) = true <->
  (e1 < e2 \/ (e1 = e2 /\ Zpos m1 <= Zpos m2))%Z.
Proof.
  unfold SFleb, SFcompare.
  change (PosDef.Pos.compare_cont Eq m1 m2) with (Pos.compare m1 m2).
  destruct (Z.compare_spec e1 e2) as [H|H|H];
    destruct (Pos.compare_spec m1 m2) as [H'|H'|H'];
    split; intros Hc; try discriminate Hc; try reflexivity; subst; lia.
Qed.

(** Bringing an angle of at most 180 degrees either way into range gives a
    float between 0 and 360, both included. *)
Lemma wrap_range (a : float) :
  (-180 <=? a) = true -> (a <=? 180) = true ->
  let r := if a <? 0 then a + 360 else a in
  (0 <=? r) = true /\ (r <=? 360) = true.
Proof.
  cbv zeta. intros Hlo Hhi. rewrite leb_spec in Hlo, Hhi. rewrite ltb_spec.
  change (Prim2SF (-180)) with (S754_finite true m360 (-45)) in Hlo.
  change (Prim2SF 180) with (S754_finite false m360 (-45)) in Hhi.
  change (Prim2SF 0) with (S754_zero false).
  pose proof (Prim2SF_valid a) as Hv.
  destruct (Prim2SF a) as [s|s| |s m e] eqn:Ea.
  - (* zero *) cbn [SFltb SFcompare].
    rewrite !leb_spec, Ea. change (Prim2SF 0) with (S754_zero false).
    split; reflexivity.
  - destruct s; discriminate.
  - discriminate.
  - destruct s.
    + (* negative *)
      cbn [SFltb SFcompare].
      rewrite !leb_spec, add_spec, Ea.
      change (Prim2SF 0) with (S754_zero false).
      change (Prim2SF 360) with (S754_finite false m360 (-44)).
      apply SFleb_negative in Hlo.
      destruct (add_360 m e Hv Hlo) as (m' & e' & R & HR).
      unfold SF64add. rewrite R. split; [reflexivity|].
      apply SFleb_positive. exact HR.
    + (* positive *)
      cbn [SFltb SFcompare].
      rewrite !leb_spec, Ea.
      change (Prim2SF 0) with (S754_zero false).
      change (Prim2SF 360) with (S754_finite false m360 (-44)).
      split; [reflexivity|].
      apply SFleb_positive in Hhi. apply SFleb_positive. lia.
Qed.
Lemma is_finite_number x : is_finite x = true -> is_number (Prim2SF x).
Proof.
  unfold is_finite, is_nan, is_infinity.
  rewrite !eqb_spec, abs_spec.
  change (Prim2SF infinity) with (S754_infinity false).
  destruct (Prim2SF x) as [s|s| |s m e]; cbn; try discriminate; try constructor.
  destruct s; discriminate.
Qed.


Lemma sub_self x : is_finite x = true -> x - x = 0.
Proof.
  intros H. apply is_finite_number in H.
  apply Prim2SF_inj. rewrite sub_spec.
  change (Prim2SF 0) with (S754_zero false).
  destruct H as [s|s m e].
  - destruct s; reflexivity.
  - unfold SF64sub, SFsub. cbv zeta. rewrite Z.min_id.
    unfold shl_align. rewrite Z.sub_diag. cbv iota beta. cbn [fst].
    reflexivity.
Qed.









End FloatFacts.

(** ** Bearings *)

Section Bearings.
Context {host : Host}.

Lemma CalculateDamageAngle_steps (o : IEntity) (hitPosition : vector) :
  SCR_CharacterDamageManagerComponent.CalculateDamageAngle (Some o) hitPosition =
  let angle :=
    atan2Degrees (GetYawPitchRoll o) (direction (GetOrigin o) hitPosition) in
  if angle <? 0 then angle + 360 else angle.
Proof. exact eq_refl. Qed.


(** C2, as the code has it: whenever the angle the engine's [Atan2] gives,
    in degrees, is a number between -180 and 180 (as the arctangent of any
    engine is), the bearing returned lies in the closed interval [0, 360].
    The upper end is included: [angle += 360] is a float addition, and for a
    small negative [angle] the sum rounds to 360 itself.  Without an owner
    entity the bearing is 0. *)
Theorem bearing_within_0_360 (owner : option IEntity) (hitPosition : vector) :
  (forall o, owner = Some o ->
     let angle :=
       atan2Degrees (GetYawPitchRoll o) (direction (GetOrigin o) hitPosition) in
     (-180 <=? angle) = true /\ (angle <=? 180) = true) ->
  let bearing :=
    SCR_CharacterDamageManagerComponent.CalculateDamageAngle owner hitPosition in
  (0 <=? bearing) = true /\ (bearing <=? 360) = true.
Proof.
  intros H. cbv zeta.
  destruct owner as [o|].
  - destruct (H o eq_refl) as [Hlo Hhi].
    rewrite CalculateDamageAngle_steps. cbv zeta in *.
    apply wrap_range; assumption.
  - split; reflexivity.
Qed.


End Bearings.

Module BearingRuns.
Import SampleHost.

(** C2, the claim as stated fails: for an observer at the origin facing
    yaw 0 and the target (1e-20, 0, 1) the angle is about -5.7e-19 degrees,
    and [angle + 360] is the float 360: the bearing is 360, outside
    [0, 360).  Every step up to the sum is exact on an IEEE engine (sine 0,
    cosine 1, length 1, arctangent of -1e-20). *)
Lemma bearing_is_360 :
  SCR_CharacterDamageManagerComponent.CalculateDamageAngle (host := sampleHost)
    (Some soldier) (Vector 1e-20 0 1) = 360 /\
  (360 <? 360) = false.
Proof. vm_compute. split; reflexivity. Qed.

(** C2 at a concrete input: a hit from behind and to the right. *)
Lemma bearing_within_0_360_run :
  let bearing :=
    SCR_CharacterDamageManagerComponent.CalculateDamageAngle (host := sampleHost)
      (Some soldier) (Vector 3 1 (-4)) in
  (0 <=? bearing) = true /\ (bearing <=? 360) = true.
Proof.
  apply (bearing_within_0_360 (host := sampleHost)).
  intros o E. injection E as <-. vm_compute. split; reflexivity.
Defined.



End BearingRuns.

(** * The cardinal directions *)

(** ** Signs in the float operations *)

Section FloatSigns.




Lemma SFmul_comm x y : SFmul prec emax x y = SFmul prec emax y x.
Proof.
  destruct x as [sx|sx| |sx mx ex], y as [sy|sy| |sy my ey]; cbn [SFmul];
    rewrite ?(xorb_comm sx sy); try reflexivity.
  rewrite (Pos.mul_comm mx my), (Z.add_comm ex ey). reflexivity.
Qed.







End FloatSigns.

Section FloatSignFacts.

Lemma mul_comm (x y : float) : x * y = y * x.
Proof.
  apply Prim2SF_inj. rewrite !mul_spec. apply SFmul_comm.
Qed.
















End FloatSignFacts.

(** ** Bounds close to the cardinal angles *)

Module CardinalBounds.
Import FloatRounding.
Local Open Scope Z_scope.

Lemma SFleb_nan_r x : SFleb x S754_nan = false.
Proof. destruct x as [s|s| |s m e]; reflexivity. Qed.






End CardinalBounds.

Section CardinalFacts.
Import CardinalBounds.







End CardinalFacts.

Section Cardinals.
Context {host : Host}.


End Cardinals.

Module CardinalRuns.
Import SampleHost.



End CardinalRuns.

(** * More of the code *)

(** ** Runs of calls *)

Section Calls.
Context {host : Host} {lib : HostLibrary}.

(** What one call can do to the world. *)
Lemma perform_cases (c : Call) (w : World) :
  perform c w = w \/
  (exists line, perform c w = Print line w) \/
  (exists line1 line2, perform c w = Print line2 (Print line1 w)) \/
  (exists g line, suppressionTime c = Some (GetTime g) /\
     perform c w = Print line (set_m_fLastSuppressionFeedbackTime (GetTime g) w)) \/
  (exists g line, collisionTime c = Some (GetTime g) /\
     perform c w = Print line (set_m_fLastCollisionTime (GetTime g) w)) \/
  (exists g line, rotorTime c = Some (GetTime g) /\
     perform c w = Print line (set_m_fLastRotorFeedbackTime (GetTime g) w)) \/
  (exists line1 line2, c = CallTryConnect /\
     perform c w = Print line2 (set_s_bConnected true (Print line1 w))) \/
  (exists line, c = CallDisconnect /\
     perform c w = Print line (set_s_bConnected false w)).
Proof.
  destruct c; cbn [perform].
  - destruct (suppression_cases g owner suppressionAmount suppressionSource w)
      as [E|[line E]]; [now left|].
    do 3 right. left. exists g, line. split; [reflexivity|exact E].
  - destruct (collision_cases g owner contact w) as [E|[line E]]; [now left|].
    do 4 right. left. exists g, line. split; [reflexivity|exact E].
  - destruct (rotor_cases g owner engineOn w) as [E|[line E]]; [now left|].
    do 5 right. left. exists g, line. split; [reflexivity|exact E].
  - unfold SCR_CharacterDamageManagerComponent.OnDamage.
    destruct (negb _); [now left|]. destruct (damage <=? 0)%Z; [now left|].
    rewrite !SendEvent_Print. destruct (healthScaled <=? 0).
    + do 2 right. left. eexists _, _. reflexivity.
    + right. left. eexists. reflexivity.
  - unfold SCR_VehicleDamageManagerComponent.OnDamage.
    destruct (negb _); [now left|]. destruct (damage <=? 0)%Z; [now left|].
    rewrite !SendEvent_Print. destruct (healthScaled <=? 0).
    + do 2 right. left. eexists _, _. reflexivity.
    + right. left. eexists. reflexivity.
  - unfold SCR_CharacterDamageManagerComponent_OnHeal.OnHeal.
    destruct (negb _); [now left|]. rewrite SendEvent_Print.
    right. left. eexists. reflexivity.
  - unfold SCR_ExplosionDamageManagerComponent_OnExplosion.OnExplosion.
    destruct (GetPlayerController g) as [pc|]; [|now left].
    destruct (GetControlledEntity pc) as [e|]; [|now left].
    cbv zeta. destruct (50 <? _); [now left|]. rewrite SendEvent_Print.
    right. left. eexists. reflexivity.
  - unfold SCR_ProjectileComponent.OnImpact.
    destruct (GetPlayerController g) as [pc|]; [|now left].
    destruct (GetControlledEntity pc) as [e|]; [|now left].
    destruct (entity_eq _ _); [now left|].
    cbv zeta. destruct (5 <? _); [now left|]. rewrite SendEvent_Print.
    right. left. eexists. reflexivity.
  - unfold SCR_WeaponComponent.OnWeaponFire.
    destruct (negb _); [now left|]. cbv zeta. rewrite SendEvent_Print.
    right. left. eexists. reflexivity.
  - unfold SCR_WeaponComponent.OnReloadComplete.
    destruct (negb _); [now left|]. rewrite SendEvent_Print.
    right. left. eexists. reflexivity.
  - unfold SCR_GrenadeComponent.OnThrow.
    destruct (negb _); [now left|]. rewrite SendEvent_Print.
    right. left. eexists. reflexivity.
  - rewrite SendEvent_Print. right. left. eexists. reflexivity.
  - do 6 right. left. eexists _, _. split; [reflexivity|].
    unfold ThirdSpaceTcpClient.TryConnect. cbn [snd]. reflexivity.
  - do 7 right. eexists. split; reflexivity.
Qed.

(** *** Each throttled check is all or nothing *)

Lemma suppression_check g owner amount source w :
  let hook := SCR_AISuppressionComponent.OnSuppressionUpdate g owner amount source in
  (emit hook w = false /\ hook w = w) \/
  (emit hook w = true /\
   (GetTime g - m_fLastSuppressionFeedbackTime w <?
      SCR_AISuppressionComponent.SUPPRESSION_FEEDBACK_INTERVAL) = false /\
   exists line,
     hook w = Print line (set_m_fLastSuppressionFeedbackTime (GetTime g) w)).
Proof.
  cbv zeta. rewrite suppression_emit.
  unfold SCR_AISuppressionComponent.OnSuppressionUpdate.
  destruct (SCR_AISuppressionComponent.IsLocalPlayer g owner) eqn:Hl;
    cbn [negb andb]; [|now left].
  destruct (amount <? 0.1); cbn [negb andb]; [now left|].
  destruct (GetTime g - m_fLastSuppressionFeedbackTime w <?
            SCR_AISuppressionComponent.SUPPRESSION_FEEDBACK_INTERVAL);
    cbn [negb]; [now left|].
  destruct owner as [o|]; [|discriminate Hl].
  right. rewrite SendEvent_Print. repeat split. eexists. reflexivity.
Qed.

Lemma collision_check g owner contact w :
  let hook := VehicleWheeledSimulation.OnContact g owner contact in
  (emit hook w = false /\ hook w = w) \/
  (emit hook w = true /\
   (GetTime g - m_fLastCollisionTime w <?
      VehicleWheeledSimulation.COLLISION_COOLDOWN) = false /\
   exists line, hook w = Print line (set_m_fLastCollisionTime (GetTime g) w)).
Proof.
  cbv zeta. rewrite collision_emit.
  unfold VehicleWheeledSimulation.OnContact.
  destruct (VehicleWheeledSimulation.IsLocalPlayerInVehicle g (Some owner));
    cbn [negb andb]; [|now left].
  destruct (GetTime g - m_fLastCollisionTime w <?
            VehicleWheeledSimulation.COLLISION_COOLDOWN);
    cbn [negb]; [now left|].
  right. rewrite SendEvent_Print. repeat split. eexists. reflexivity.
Qed.

Lemma rotor_check g owner engineOn w :
  let hook := SCR_HelicopterControllerComponent.OnUpdate g owner engineOn in
  (emit hook w = false /\ hook w = w) \/
  (emit hook w = true /\
   (GetTime g - m_fLastRotorFeedbackTime w <?
      SCR_HelicopterControllerComponent.ROTOR_FEEDBACK_INTERVAL) = false /\
   exists line, hook w = Print line (set_m_fLastRotorFeedbackTime (GetTime g) w)).
Proof.
  cbv zeta. rewrite rotor_emit.
  unfold SCR_HelicopterControllerComponent.OnUpdate.
  destruct (SCR_HelicopterControllerComponent.IsLocalPlayerPilot g owner);
    cbn [negb andb]; [|now left].
  destruct engineOn; cbn [negb andb]; [|now left].
  destruct (GetTime g - m_fLastRotorFeedbackTime w <?
            SCR_HelicopterControllerComponent.ROTOR_FEEDBACK_INTERVAL);
    cbn [negb]; [now left|].
  right. rewrite SendEvent_Print. repeat split. eexists. reflexivity.
Qed.

(** *** Invariants of a run *)

Lemma perform_keeps (c : Call) (w : World) :
  wire (perform c w) = wire w /\
  s_fLastReconnectAttempt (perform c w) = s_fLastReconnectAttempt w /\
  daemonListening (perform c w) = daemonListening w /\
  exists lines, console (perform c w) = (console w ++ lines)%list.
Proof.
  destruct (perform_cases c w)
    as [E|[[l E]|[(l1 & l2 & E)|[(g & l & _ & E)|[(g & l & _ & E)|
        [(g & l & _ & E)|[(l1 & l2 & _ & E)|(l & _ & E)]]]]]]];
    rewrite E; repeat split.
  - exists []. now rewrite app_nil_r.
  - exists [l]. reflexivity.
  - exists [l1; l2]. cbn. now rewrite <- app_assoc.
  - exists [l]. reflexivity.
  - exists [l]. reflexivity.
  - exists [l]. reflexivity.
  - exists [l1; l2]. cbn. now rewrite <- app_assoc.
  - exists [l]. reflexivity.
Qed.

(** X5: in any run of calls (hooks, [SendEvent], [TryConnect],
    [Disconnect]) nothing is ever written to the daemon's socket, not even
    while connected; [s_fLastReconnectAttempt] is never changed, so no
    reconnection is ever scheduled; and the console only grows: what was
    printed stays, in order. *)
Theorem run_keeps (calls : list Call) (w : World) :
  wire (run calls w) = wire w /\
  s_fLastReconnectAttempt (run calls w) = s_fLastReconnectAttempt w /\
  daemonListening (run calls w) = daemonListening w /\
  exists lines, console (run calls w) = (console w ++ lines)%list.
Proof.
  revert w. induction calls as [|c calls IH]; intros w; cbn [run].
  - repeat split. exists []. now rewrite app_nil_r.
  - destruct (IH (perform c w)) as (A & B & C & lines & D).
    destruct (perform_keeps c w) as (A' & B' & C' & lines' & D').
    rewrite A, B, C, A', B', C'. repeat split.
    exists (lines' ++ lines)%list. rewrite D, D'. now rewrite app_assoc.
Qed.

Lemma perform_connected (c : Call) (w : World) :
  s_bConnected (perform c w) = connectedAfter [c] (s_bConnected w).
Proof.
  assert (H : c <> CallTryConnect -> c <> CallDisconnect ->
              s_bConnected (perform c w) = s_bConnected w).
  { intros N1 N2.
    destruct (perform_cases c w)
      as [E|[[l E]|[(l1 & l2 & E)|[(g & l & _ & E)|[(g & l & _ & E)|
          [(g & l & _ & E)|[(l1 & l2 & T & E)|(l & T & E)]]]]]]];
      try contradiction; rewrite E; reflexivity. }
  destruct c; try (cbn [connectedAfter]; apply H; discriminate); reflexivity.
Qed.

(** X6: after any run of calls the client is connected exactly when the
    last [TryConnect] or [Disconnect] of the run was a [TryConnect] (or, if
    the run has neither, when it was connected before): no hook and no
    [SendEvent] ever changes the connection state, every [TryConnect]
    connects and every [Disconnect] disconnects. *)
Theorem connected_after_run (calls : list Call) (w : World) :
  ThirdSpaceTcpClient.IsConnected (run calls w) =
  connectedAfter calls (ThirdSpaceTcpClient.IsConnected w).
Proof.
  unfold ThirdSpaceTcpClient.IsConnected.
  revert w. induction calls as [|c calls IH]; intros w; cbn [run].
  - reflexivity.
  - rewrite IH, perform_connected. destruct c; reflexivity.
Qed.

(** *** Throttled emissions are spaced *)

Lemma spacing (timeOf : Call -> option float) (last : World -> float)
    (interval : float) :
  (forall c w, timeOf c = None -> last (perform c w) = last w) ->
  (forall c t w, timeOf c = Some t ->
     (emit (perform c) w = false /\ last (perform c w) = last w) \/
     (emit (perform c) w = true /\ last (perform c w) = t /\
      (t - last w <? interval) = false)) ->
  forall calls w, spaced interval (last w) (emissionTimes timeOf calls w).
Proof.
  intros Hother Hown calls.
  induction calls as [|c calls IH]; intros w; cbn [emissionTimes]; [exact I|].
  destruct (timeOf c) as [t|] eqn:Et.
  - destruct (Hown c t w Et) as [(E & L)|(E & L & G)]; rewrite E.
    + rewrite <- L. apply IH.
    + cbn [spaced]. split; [exact G|]. rewrite <- L. apply IH.
  - rewrite <- (Hother c w Et). apply IH.
Qed.

Lemma other_calls_keep_timer (c : Call) (w : World) :
  (suppressionTime c = None ->
   m_fLastSuppressionFeedbackTime (perform c w) = m_fLastSuppressionFeedbackTime w) /\
  (collisionTime c = None ->
   m_fLastCollisionTime (perform c w) = m_fLastCollisionTime w) /\
  (rotorTime c = None ->
   m_fLastRotorFeedbackTime (perform c w) = m_fLastRotorFeedbackTime w).
Proof.
  destruct (perform_cases c w)
    as [E|[[l E]|[(l1 & l2 & E)|[(g & l & T & E)|[(g & l & T & E)|
        [(g & l & T & E)|[(l1 & l2 & T & E)|(l & T & E)]]]]]]];
    rewrite E; repeat split; intros N; try reflexivity;
    rewrite N in T; discriminate T.
Qed.

(** Along a run, the emissions of each category are spaced by the
    last-feedback time that the run threads for it. *)
Lemma runs_are_spaced (calls : list Call) (w : World) :
  spaced SCR_AISuppressionComponent.SUPPRESSION_FEEDBACK_INTERVAL
    (m_fLastSuppressionFeedbackTime w)
    (emissionTimes suppressionTime calls w) /\
  spaced VehicleWheeledSimulation.COLLISION_COOLDOWN
    (m_fLastCollisionTime w)
    (emissionTimes collisionTime calls w) /\
  spaced SCR_HelicopterControllerComponent.ROTOR_FEEDBACK_INTERVAL
    (m_fLastRotorFeedbackTime w)
    (emissionTimes rotorTime calls w).
Proof.
  repeat split; apply spacing.
  - intros c w' N. now apply (other_calls_keep_timer c w').
  - intros c t w' T. destruct c; try discriminate T.
    injection T as <-. cbn [perform].
    destruct (suppression_check g owner suppressionAmount suppressionSource w')
      as [(E & S)|(E & G & line & S)]; cbv zeta in *.
    + left. rewrite S. split; [exact E|reflexivity].
    + right. rewrite S. repeat split; assumption.
  - intros c w' N. now apply (other_calls_keep_timer c w').
  - intros c t w' T. destruct c; try discriminate T.
    injection T as <-. cbn [perform].
    destruct (collision_check g owner contact w')
      as [(E & S)|(E & G & line & S)]; cbv zeta in *.
    + left. rewrite S. split; [exact E|reflexivity].
    + right. rewrite S. repeat split; assumption.
  - intros c w' N. now apply (other_calls_keep_timer c w').
  - intros c t w' T. destruct c; try discriminate T.
    injection T as <-. cbn [perform].
    destruct (rotor_check g owner engineOn w')
      as [(E & S)|(E & G & line & S)]; cbv zeta in *.
    + left. rewrite S. split; [exact E|reflexivity].
    + right. rewrite S. repeat split; assumption.
Qed.
(** X1: in a run of calls on freshly constructed components (last-feedback
    times 0), in which the throttled calls all go to the same three
    components (one character's suppression component, one vehicle's
    simulation, one helicopter's controller), however the categories, the
    other hooks and the client's operations interleave, two successive
    emissions of one throttled category are never closer than its interval
    (0.5 for suppression and collisions, 0.2 for rotor feedback), and the
    first is not closer than that to time 0. *)
Theorem throttle_spacing (character vehicle helicopter : positive)
    (calls : list Call) (w : World) :
  forallb (onComponentsOf character vehicle helicopter) calls = true ->
  m_fLastSuppressionFeedbackTime w = 0 ->
  m_fLastCollisionTime w = 0 ->
  m_fLastRotorFeedbackTime w = 0 ->
  spaced SCR_AISuppressionComponent.SUPPRESSION_FEEDBACK_INTERVAL 0
    (emissionTimes suppressionTime calls w) /\
  spaced VehicleWheeledSimulation.COLLISION_COOLDOWN 0
    (emissionTimes collisionTime calls w) /\
  spaced SCR_HelicopterControllerComponent.ROTOR_FEEDBACK_INTERVAL 0
    (emissionTimes rotorTime calls w).
Proof.
  intros _ S C R. rewrite <- S at 1. rewrite <- C at 1. rewrite <- R at 1.
  apply runs_are_spaced.
Qed.

End Calls.

(** ** Edges of the throttle *)

Lemma is_nan_spec x : is_nan x = true -> Prim2SF x = S754_nan.
Proof.
  unfold is_nan. rewrite eqb_spec. unfold SFeqb, SFcompare.
  destruct (Prim2SF x) as [s|s| |s m e]; try reflexivity; try discriminate.
  - destruct s; discriminate.
  - rewrite Z.compare_refl.
    change (PosDef.Pos.compare_cont Eq m m) with (Pos.compare m m).
    rewrite Pos.compare_refl. destruct s; discriminate.
Qed.

Lemma nan_sub_ltb t x i : is_nan t = true -> (t - x <? i) = false.
Proof.
  intros H. apply is_nan_spec in H.
  rewrite ltb_spec, sub_spec, H. reflexivity.
Qed.

Section ThrottleEdges.
Context {host : Host}.

Lemma sent_Print (hook f : World -> World) line w :
  hook w = Print line (f w) -> console (f w) = console w ->
  sent hook w = [line].
Proof.
  intros Hh Hc. apply sent_one. rewrite Hh, console_Print, Hc. reflexivity.
Qed.

Lemma sent_same (hook : World -> World) w : hook w = w -> sent hook w = [].
Proof.
  intros Hh. apply sent_none. now rewrite Hh.
Qed.

(** X2: a call of a throttled hook does all or nothing.  Either it leaves
    the whole state as it was and emits no event, or it emits exactly one
    event and sets its own last-emission time to the current time, and
    changes nothing else.  The event is [player_suppressed] with the bearing
    of the source and the clamped tenfold amount as intensity;
    [vehicle_collision] with the bearing of the contact normal and the
    clamped tenth of the absolute impact speed as intensity;
    [helicopter_rotor] always with bearing 180 and intensity 3. *)
Theorem throttled_check_all_or_nothing
    (g : Game) (owner heli : option IEntity) (vehicle : IEntity)
    (amount : float) (source : vector) (contact : Contact) (engineOn : bool)
    (w : World) :
  let suppression :=
    SCR_AISuppressionComponent.OnSuppressionUpdate g owner amount source in
  let collision := VehicleWheeledSimulation.OnContact g vehicle contact in
  let rotor := SCR_HelicopterControllerComponent.OnUpdate g heli engineOn in
  (suppression w = w /\ sent suppression w = [] \/
   exists o line,
     owner = Some o /\
     line = eventLine "player_suppressed"
              (SCR_AISuppressionComponent.CalculateAngleToSource o source) 0
              (Math_Clamp (amount * 10) 1 10) /\
     sent suppression w = [line] /\
     suppression w =
       Print line (set_m_fLastSuppressionFeedbackTime (GetTime g) w)) /\
  (collision w = w /\ sent collision w = [] \/
   exists line,
     line = eventLine "vehicle_collision"
              (VehicleWheeledSimulation.CalculateImpactAngle
                 vehicle (GetNormal contact)) 0
              (Math_Clamp
                 (abs (GetRelativeNormalVelocityAfter contact) / 10.0) 1 10) /\
     sent collision w = [line] /\
     collision w = Print line (set_m_fLastCollisionTime (GetTime g) w)) /\
  (rotor w = w /\ sent rotor w = [] \/
   exists line,
     line = eventLine "helicopter_rotor" 180 0 3 /\
     sent rotor w = [line] /\
     rotor w = Print line (set_m_fLastRotorFeedbackTime (GetTime g) w)).
Proof.
  cbv zeta. split; [|split].
  - assert (H :
      SCR_AISuppressionComponent.OnSuppressionUpdate g owner amount source w = w \/
      exists o, owner = Some o /\
        SCR_AISuppressionComponent.OnSuppressionUpdate g owner amount source w =
        Print (eventLine "player_suppressed"
                 (SCR_AISuppressionComponent.CalculateAngleToSource o source) 0
                 (Math_Clamp (amount * 10) 1 10))
              (set_m_fLastSuppressionFeedbackTime (GetTime g) w)).
    { unfold SCR_AISuppressionComponent.OnSuppressionUpdate.
      destruct (SCR_AISuppressionComponent.IsLocalPlayer g owner) eqn:L;
        cbn [negb]; [|now left].
      destruct (amount <? 0.1); [now left|]. cbv zeta.
      destruct (_ <? SCR_AISuppressionComponent.SUPPRESSION_FEEDBACK_INTERVAL);
        [now left|].
      destruct owner as [o|]; [|discriminate L].
      right. exists o. split; [reflexivity|]. now rewrite SendEvent_Print. }
    destruct H as [E|(o & O & E)].
    + left. split; [exact E|now apply sent_same].
    + right. exists o. eexists. split; [exact O|]. split; [reflexivity|].
      split; [|exact E].
      now apply (sent_Print _ (set_m_fLastSuppressionFeedbackTime (GetTime g))).
  - assert (H :
      VehicleWheeledSimulation.OnContact g vehicle contact w = w \/
      VehicleWheeledSimulation.OnContact g vehicle contact w =
        Print (eventLine "vehicle_collision"
                 (VehicleWheeledSimulation.CalculateImpactAngle
                    vehicle (GetNormal contact)) 0
                 (Math_Clamp
                    (abs (GetRelativeNormalVelocityAfter contact) / 10.0) 1 10))
              (set_m_fLastCollisionTime (GetTime g) w)).
    { unfold VehicleWheeledSimulation.OnContact.
      destruct (VehicleWheeledSimulation.IsLocalPlayerInVehicle g (Some vehicle));
        cbn [negb]; [|now left].
      cbv zeta.
      destruct (_ <? VehicleWheeledSimulation.COLLISION_COOLDOWN); [now left|].
      right. now rewrite SendEvent_Print. }
    destruct H as [E|E].
    + left. split; [exact E|now apply sent_same].
    + right. eexists. split; [reflexivity|]. split; [|exact E].
      now apply (sent_Print _ (set_m_fLastCollisionTime (GetTime g))).
  - assert (H :
      SCR_HelicopterControllerComponent.OnUpdate g heli engineOn w = w \/
      SCR_HelicopterControllerComponent.OnUpdate g heli engineOn w =
        Print (eventLine "helicopter_rotor" 180 0 3)
              (set_m_fLastRotorFeedbackTime (GetTime g) w)).
    { unfold SCR_HelicopterControllerComponent.OnUpdate.
      destruct (SCR_HelicopterControllerComponent.IsLocalPlayerPilot g heli);
        cbn [negb]; [|now left].
      destruct engineOn; cbn [negb]; [|now left]. cbv zeta.
      destruct (_ <? SCR_HelicopterControllerComponent.ROTOR_FEEDBACK_INTERVAL);
        [now left|].
      right. now rewrite SendEvent_Print. }
    destruct H as [E|E].
    + left. split; [exact E|now apply sent_same].
    + right. eexists. split; [reflexivity|]. split; [|exact E].
      now apply (sent_Print _ (set_m_fLastRotorFeedbackTime (GetTime g))).
Qed.

(** X3: when a throttled hook has emitted at a finite time, a further call
    of the same category at that same time emits nothing: the elapsed time
    is 0, below every interval.  For suppression and collisions this holds
    whatever the owner of the second call (only the local player's own
    character or vehicle passes the hook's test); for the rotor hook it is
    stated for a second call on the same helicopter, whose controller holds
    the time of the first. *)
Theorem repeat_at_the_same_time_is_dropped
    (g : Game) (owner owner' heli : option IEntity)
    (vehicle vehicle' : IEntity) (amount amount' : float)
    (source source' : vector) (contact contact' : Contact)
    (engineOn engineOn' : bool) (w : World) :
  is_finite (GetTime g) = true ->
  let suppression :=
    SCR_AISuppressionComponent.OnSuppressionUpdate g owner amount source in
  let suppression' :=
    SCR_AISuppressionComponent.OnSuppressionUpdate g owner' amount' source' in
  let collision := VehicleWheeledSimulation.OnContact g vehicle contact in
  let collision' := VehicleWheeledSimulation.OnContact g vehicle' contact' in
  let rotor := SCR_HelicopterControllerComponent.OnUpdate g heli engineOn in
  let rotor' := SCR_HelicopterControllerComponent.OnUpdate g heli engineOn' in
  (emit suppression w = true -> emit suppression' (suppression w) = false) /\
  (emit collision w = true -> emit collision' (collision w) = false) /\
  (emit rotor w = true -> emit rotor' (rotor w) = false).
Proof.
  intros F. cbv zeta.
  assert (Z5 : (GetTime g - GetTime g <? 0.5) = true)
    by (rewrite (sub_self _ F); reflexivity).
  assert (Z2 : (GetTime g - GetTime g <? 0.2) = true)
    by (rewrite (sub_self _ F); reflexivity).
  repeat split; intros E.
  - destruct (suppression_cases g owner amount source w) as [S|[line S]].
    + rewrite (emit_skip _ _ S) in E. discriminate E.
    + rewrite suppression_emit, S.
      cbn [m_fLastSuppressionFeedbackTime Print
           set_m_fLastSuppressionFeedbackTime].
      unfold SCR_AISuppressionComponent.SUPPRESSION_FEEDBACK_INTERVAL.
      rewrite Z5. cbn [negb]. apply andb_false_r.
  - destruct (collision_cases g vehicle contact w) as [S|[line S]].
    + rewrite (emit_skip _ _ S) in E. discriminate E.
    + rewrite collision_emit, S.
      cbn [m_fLastCollisionTime Print set_m_fLastCollisionTime].
      unfold VehicleWheeledSimulation.COLLISION_COOLDOWN.
      rewrite Z5. cbn [negb]. apply andb_false_r.
  - destruct (rotor_cases g heli engineOn w) as [S|[line S]].
    + rewrite (emit_skip _ _ S) in E. discriminate E.
    + rewrite rotor_emit, S.
      cbn [m_fLastRotorFeedbackTime Print set_m_fLastRotorFeedbackTime].
      unfold SCR_HelicopterControllerComponent.ROTOR_FEEDBACK_INTERVAL.
      rewrite Z2. cbn [negb]. apply andb_false_r.
Qed.

(** X4: when the clock reads NaN the throttle never holds an event back: the
    comparison of the elapsed time with the interval is false, so a
    throttled hook emits whenever its other conditions hold, on every
    call. *)
Theorem nan_clock_is_never_throttled
    (g : Game) (owner heli : option IEntity) (vehicle : IEntity)
    (amount : float) (source : vector) (contact : Contact) (engineOn : bool)
    (w : World) :
  is_nan (GetTime g) = true ->
  emit (SCR_AISuppressionComponent.OnSuppressionUpdate g owner amount source) w
    = SCR_AISuppressionComponent.IsLocalPlayer g owner && negb (amount <? 0.1) /\
  emit (VehicleWheeledSimulation.OnContact g vehicle contact) w
    = VehicleWheeledSimulation.IsLocalPlayerInVehicle g (Some vehicle) /\
  emit (SCR_HelicopterControllerComponent.OnUpdate g heli engineOn) w
    = SCR_HelicopterControllerComponent.IsLocalPlayerPilot g heli && engineOn.
Proof.
  intros N.
  rewrite suppression_emit, collision_emit, rotor_emit.
  rewrite !(nan_sub_ltb _ _ _ N). cbn [negb].
  rewrite !andb_true_r. repeat split.
Qed.

(** X16: the pilot test of the rotor hook never looks at which helicopter
    the hook runs on: for any two owner entities it answers the same.  It
    only asks whether the local player sits in a pilot seat of some
    vehicle.  So while the local player pilots a vehicle [a], the
    controller of any other helicopter [b] whose engine is on passes the
    test too and, from its own fresh last-feedback time 0, emits at every
    time that is not below 0.2. *)
Theorem rotor_hook_ignores_the_helicopter (g : Game) (a b : IEntity)
    (w : World) :
  SCR_HelicopterControllerComponent.IsLocalPlayerPilot g (Some a) =
  SCR_HelicopterControllerComponent.IsLocalPlayerPilot g (Some b) /\
  (SCR_HelicopterControllerComponent.IsLocalPlayerPilot g (Some a) = true ->
   m_fLastRotorFeedbackTime w = 0 ->
   emit (SCR_HelicopterControllerComponent.OnUpdate g (Some b) true) w =
   negb (GetTime g <? 0.2)).
Proof.
  split; [reflexivity|]. intros P T.
  rewrite rotor_emit, T, float_sub_zero.
  change (SCR_HelicopterControllerComponent.IsLocalPlayerPilot g (Some b))
    with (SCR_HelicopterControllerComponent.IsLocalPlayerPilot g (Some a)).
  rewrite P. reflexivity.
Qed.

End ThrottleEdges.

(** ** Bearings *)

Section BearingFacts.
Context {host : Host} {lib : HostLibrary}.

(** X8: the bearing computations of the vehicle hooks are the one of the
    player-damage hook: the one for vehicle hits gives, for every observer
    and target, the bearing the player-damage hook gives; the one for
    collisions gives the bearing of its direction as a target seen from the
    origin. *)
Theorem calculators_agree (o : IEntity) (p : vector) :
  SCR_VehicleDamageManagerComponent.CalculateHitAngle (Some o) p =
    SCR_CharacterDamageManagerComponent.CalculateDamageAngle (Some o) p /\
  VehicleWheeledSimulation.CalculateImpactAngle o p =
    SCR_CharacterDamageManagerComponent.CalculateDamageAngle
      (Some {| entityId := entityId o;
               GetOrigin := Vector 0 0 0;
               GetYawPitchRoll := GetYawPitchRoll o;
               FindCompartmentAccess := FindCompartmentAccess o |}) p.
Proof.
  split; [reflexivity|].
  unfold VehicleWheeledSimulation.CalculateImpactAngle,
    SCR_CharacterDamageManagerComponent.CalculateDamageAngle, vsub.
  cbn [GetOrigin GetYawPitchRoll vec0 vec1 vec2].
  rewrite !float_sub_zero. destruct p; reflexivity.
Qed.

(** X19: the three bearing computations of the environment hooks
    (explosions, suppression, bullet impacts) give, for every observer and
    target, the bearing the player-damage hook gives. *)
Theorem environment_calculators_agree (o : IEntity) (p : vector) :
  let bearing :=
    SCR_CharacterDamageManagerComponent.CalculateDamageAngle (Some o) p in
  SCR_ExplosionDamageManagerComponent.CalculateAngleToPosition o p = bearing /\
  SCR_AISuppressionComponent.CalculateAngleToSource o p = bearing /\
  SCR_ProjectileComponent.CalculateAngleToImpact o p = bearing.
Proof.
  cbv zeta. split; [reflexivity|]. split; reflexivity.
Qed.

(** X7: a bearing depends only on the horizontal coordinates of observer
    and target and on the observer's yaw: two observers and targets that
    agree on these get the same bearing, whatever their heights and the
    observers' pitch and roll. *)
Theorem bearing_ignores_height_pitch_roll (o o' : IEntity) (p p' : vector) :
  vec0 (GetOrigin o') = vec0 (GetOrigin o) ->
  vec2 (GetOrigin o') = vec2 (GetOrigin o) ->
  vec0 (GetYawPitchRoll o') = vec0 (GetYawPitchRoll o) ->
  vec0 p' = vec0 p ->
  vec2 p' = vec2 p ->
  SCR_CharacterDamageManagerComponent.CalculateDamageAngle (Some o') p' =
  SCR_CharacterDamageManagerComponent.CalculateDamageAngle (Some o) p.
Proof.
  intros H0 H2 Hy P0 P2.
  unfold SCR_CharacterDamageManagerComponent.CalculateDamageAngle, vsub, vset.
  cbn [vget vec0 vec1 vec2]. rewrite H0, H2, Hy, P0, P2. reflexivity.
Qed.

End BearingFacts.

(** ** Whose event it is *)

Section LocalPlayerFacts.
Context {host : Host}.

(** X18: the copies of the local-player tests agree.  The suppression hook
    and the player-damage hook test the owner in the same way, and the
    collision hook and the vehicle-damage hook test a vehicle in the same
    way; only for a null vehicle do the latter two differ, where the
    vehicle-damage test says no and the collision test says yes exactly
    when the player's compartment has no vehicle either. *)
Theorem local_player_tests_agree (g : Game) (owner : option IEntity)
    (vehicle : IEntity) :
  SCR_AISuppressionComponent.IsLocalPlayer g owner =
    SCR_CharacterDamageManagerComponent.IsLocalPlayer g owner /\
  VehicleWheeledSimulation.IsLocalPlayerInVehicle g (Some vehicle) =
    SCR_VehicleDamageManagerComponent.IsLocalPlayerInVehicle g (Some vehicle) /\
  SCR_VehicleDamageManagerComponent.IsLocalPlayerInVehicle g None = false /\
  VehicleWheeledSimulation.IsLocalPlayerInVehicle g None =
    match GetPlayerController g with
    | Some playerController =>
        match GetControlledEntity playerController with
        | Some controlledEntity =>
            match FindCompartmentAccess controlledEntity with
            | Some compartment =>
                match GetVehicle compartment with
                | Some _ => false
                | None => true
                end
            | None => false
            end
        | None => false
        end
    | None => false
    end.
Proof.
  split; [reflexivity|]. split; [reflexivity|]. split; [reflexivity|].
  unfold VehicleWheeledSimulation.IsLocalPlayerInVehicle.
  destruct (GetPlayerController g) as [pc|]; [|reflexivity].
  destruct (GetControlledEntity pc) as [e|]; [|reflexivity].
  destruct (FindCompartmentAccess e) as [compartment|]; [|reflexivity].
  destruct (GetVehicle compartment); reflexivity.
Qed.

End LocalPlayerFacts.

(** ** Hooks without a throttle *)

Section DamageFacts.
Context {host : Host}.

(** X9: what the two damage hooks emit, in every case: nothing unless the
    local player (or the vehicle the local player sits in) is hit with
    [damage > 0]; otherwise one damage event with the bearing of the hit and
    the damage, followed by a death event ([player_death] with the same
    damage, [vehicle_explosion] with damage 100) exactly when the scaled
    health is [<= 0] (so not when it is NaN); and nothing of the state but
    the console changes. *)
Theorem damage_events (g g' : Game) (owner vehicle : option IEntity)
    (healthScaled healthScaled' : float) (damage damage' : Z)
    (hitPosition hitPosition' : vector) (w : World) :
  let player :=
    SCR_CharacterDamageManagerComponent.OnDamage
      g owner healthScaled damage hitPosition in
  let angle :=
    SCR_CharacterDamageManagerComponent.CalculateDamageAngle owner hitPosition in
  let car :=
    SCR_VehicleDamageManagerComponent.OnDamage
      g' vehicle healthScaled' damage' hitPosition' in
  let angle' :=
    SCR_VehicleDamageManagerComponent.CalculateHitAngle vehicle hitPosition' in
  sent player w =
    (if SCR_CharacterDamageManagerComponent.IsLocalPlayer g owner
        && (0 <? damage)%Z
     then eventLine "player_damage" angle damage 0 ::
          (if healthScaled <=? 0
           then [eventLine "player_death" angle damage 0] else [])
     else []) /\
  sameState w (player w) /\
  sent car w =
    (if SCR_VehicleDamageManagerComponent.IsLocalPlayerInVehicle g' vehicle
        && (0 <? damage')%Z
     then eventLine "vehicle_damage" angle' damage' 0 ::
          (if healthScaled' <=? 0
           then [eventLine "vehicle_explosion" angle' 100 0] else [])
     else []) /\
  sameState w (car w).
Proof.
  cbv zeta.
  assert (S1 : forall l, sameState w (Print l w)) by (intros; repeat split).
  assert (S2 : forall l l', sameState w (Print l' (Print l w)))
    by (intros; repeat split).
  assert (S0 : sameState w w) by (repeat split).
  rewrite !Z.ltb_antisym.
  split; [|split; [|split]].
  - destruct (SCR_CharacterDamageManagerComponent.IsLocalPlayer g owner) eqn:L;
      cbn [negb andb].
    2:{ apply sent_none. unfold SCR_CharacterDamageManagerComponent.OnDamage.
        now rewrite L. }
    destruct (damage <=? 0)%Z eqn:D; cbn [negb].
    { apply sent_none. unfold SCR_CharacterDamageManagerComponent.OnDamage.
      now rewrite L, D. }
    destruct (healthScaled <=? 0) eqn:H.
    + apply sent_two. unfold SCR_CharacterDamageManagerComponent.OnDamage.
      rewrite L, D, H. cbn [negb]. now rewrite !SendEvent_Print.
    + apply sent_one. unfold SCR_CharacterDamageManagerComponent.OnDamage.
      rewrite L, D, H. cbn [negb]. now rewrite !SendEvent_Print.
  - unfold SCR_CharacterDamageManagerComponent.OnDamage.
    destruct (SCR_CharacterDamageManagerComponent.IsLocalPlayer g owner);
      cbn [negb]; [|exact S0].
    destruct (damage <=? 0)%Z; [exact S0|]. rewrite !SendEvent_Print.
    destruct (healthScaled <=? 0); [apply S2|apply S1].
  - destruct (SCR_VehicleDamageManagerComponent.IsLocalPlayerInVehicle g' vehicle)
      eqn:L; cbn [negb andb].
    2:{ apply sent_none. unfold SCR_VehicleDamageManagerComponent.OnDamage.
        now rewrite L. }
    destruct (damage' <=? 0)%Z eqn:D; cbn [negb].
    { apply sent_none. unfold SCR_VehicleDamageManagerComponent.OnDamage.
      now rewrite L, D. }
    destruct (healthScaled' <=? 0) eqn:H.
    + apply sent_two. unfold SCR_VehicleDamageManagerComponent.OnDamage.
      rewrite L, D, H. cbn [negb]. now rewrite !SendEvent_Print.
    + apply sent_one. unfold SCR_VehicleDamageManagerComponent.OnDamage.
      rewrite L, D, H. cbn [negb]. now rewrite !SendEvent_Print.
  - unfold SCR_VehicleDamageManagerComponent.OnDamage.
    destruct (SCR_VehicleDamageManagerComponent.IsLocalPlayerInVehicle g' vehicle);
      cbn [negb]; [|exact S0].
    destruct (damage' <=? 0)%Z; [exact S0|]. rewrite !SendEvent_Print.
    destruct (healthScaled' <=? 0); [apply S2|apply S1].
Qed.

End DamageFacts.

Section OneShotFacts.
Context {host : Host} {lib : HostLibrary}.

(** X11: the event type of a weapon shot is always one of the four
    weapon-fire categories, whatever the weapon's name and whatever the
    engine's [ToLower] and [Contains] answer. *)
Theorem weapon_event_type_in_vocabulary (isBaseWeapon : bool)
    (owner : option AttachedEntity) :
  In (SCR_WeaponComponent.GetWeaponEventType isBaseWeapon owner)
     weaponFireCategories.
Proof.
  unfold SCR_WeaponComponent.GetWeaponEventType, weaponFireCategories.
  destruct isBaseWeapon; cbn [negb]; [|now left].
  destruct owner as [weaponEntity|]; [|now left]. cbv zeta.
  destruct (_ || _ || _ || _); [right; now left|].
  destruct (_ || _ || _ || _); [right; right; now left|].
  destruct (_ || _ || _ || _); [right; right; right; now left|now left].
Qed.

Lemma walkUp_spec (g : Game) (chain : list IEntity) :
  SCR_WeaponComponent.walkUp g chain = controlsOneOf g chain.
Proof.
  unfold controlsOneOf.
  induction chain as [|character above IH];
    cbn [SCR_WeaponComponent.walkUp existsb].
  - now destruct (GetPlayerController g).
  - destruct (GetPlayerController g) as [pc|]; [|exact IH].
    cbv zeta. destruct (entity_eq _ _); [reflexivity|exact IH].
Qed.

(** X12: a weapon belongs to the local player exactly when the entity the
    local player controls is one of the weapon's ancestors, at any height of
    the hierarchy; a grenade only when it is the grenade's direct parent.
    Without an owner neither does. *)
Theorem ownership_walks_the_hierarchy (g : Game)
    (owner : option AttachedEntity) :
  SCR_WeaponComponent.IsLocalPlayerWeapon g owner =
    match owner with
    | Some o => controlsOneOf g (GetParents o)
    | None => false
    end /\
  SCR_GrenadeComponent.IsLocalPlayerGrenade g owner =
    match owner with
    | Some o => controlsOneOf g (firstn 1 (GetParents o))
    | None => false
    end.
Proof.
  destruct owner as [o|]; [|split; reflexivity]. split.
  - apply walkUp_spec.
  - unfold SCR_GrenadeComponent.IsLocalPlayerGrenade, GetParent, controlsOneOf.
    destruct (GetParents o) as [|thrower above]; cbn [firstn existsb hd_error].
    + now destruct (GetPlayerController g).
    + destruct (GetPlayerController g) as [pc|]; [|reflexivity].
      now rewrite orb_false_r.
Qed.

Lemma run_repeat (c : Call) (line : string) :
  (forall w, perform c w = Print line w) ->
  forall n w, console (run (repeat c n) w) = (console w ++ repeat line n)%list.
Proof.
  intros H n. induction n as [|n IH]; intros w; cbn [repeat run].
  - now rewrite app_nil_r.
  - rewrite IH, H, console_Print, <- app_assoc. reflexivity.
Qed.

Lemma run_repeat_skip (c : Call) :
  (forall w, perform c w = w) ->
  forall n w, run (repeat c n) w = w.
Proof.
  intros H n. induction n as [|n IH]; intros w; cbn [repeat run].
  - reflexivity.
  - now rewrite H.
Qed.

(** X13: the one-shot hooks have no throttle.  The same call of the weapon
    fire, reload, grenade throw or heal hook repeated [n] times emits [n]
    events when it is the local player's (each the same line, with bearing
    0 and damage 0), however close in time the calls are, and none
    otherwise. *)
Theorem one_shot_hooks_are_not_throttled (n : nat) (g : Game)
    (isBaseWeapon : bool) (weapon grenade : option AttachedEntity)
    (owner : option IEntity) (healAmount : float) (w : World) :
  console (run (repeat (CallOnWeaponFire g isBaseWeapon weapon) n) w) =
    (console w ++
     if SCR_WeaponComponent.IsLocalPlayerWeapon g weapon
     then repeat (eventLine
                    (SCR_WeaponComponent.GetWeaponEventType isBaseWeapon weapon)
                    0 0 0) n
     else [])%list /\
  console (run (repeat (CallOnReloadComplete g weapon) n) w) =
    (console w ++
     if SCR_WeaponComponent.IsLocalPlayerWeapon g weapon
     then repeat (eventLine "weapon_reload" 0 0 0) n
     else [])%list /\
  console (run (repeat (CallOnThrow g grenade) n) w) =
    (console w ++
     if SCR_GrenadeComponent.IsLocalPlayerGrenade g grenade
     then repeat (eventLine "grenade_throw" 0 0 0) n
     else [])%list /\
  console (run (repeat (CallOnHeal g owner healAmount) n) w) =
    (console w ++
     if SCR_CharacterDamageManagerComponent.IsLocalPlayer g owner
     then repeat (eventLine "player_heal" 0 0
                    (Math_Clamp (healAmount / 10.0) 1 10)) n
     else [])%list.
Proof.
  split; [|split; [|split]].
  - destruct (SCR_WeaponComponent.IsLocalPlayerWeapon g weapon) eqn:L.
    + apply run_repeat. intros w'. cbn [perform].
      unfold SCR_WeaponComponent.OnWeaponFire. rewrite L. cbn [negb].
      cbv zeta. now rewrite SendEvent_Print.
    + rewrite run_repeat_skip; [now rewrite app_nil_r|].
      intros w'. cbn [perform].
      unfold SCR_WeaponComponent.OnWeaponFire. now rewrite L.
  - destruct (SCR_WeaponComponent.IsLocalPlayerWeapon g weapon) eqn:L.
    + apply run_repeat. intros w'. cbn [perform].
      unfold SCR_WeaponComponent.OnReloadComplete. rewrite L. cbn [negb].
      now rewrite SendEvent_Print.
    + rewrite run_repeat_skip; [now rewrite app_nil_r|].
      intros w'. cbn [perform].
      unfold SCR_WeaponComponent.OnReloadComplete. now rewrite L.
  - destruct (SCR_GrenadeComponent.IsLocalPlayerGrenade g grenade) eqn:L.
    + apply run_repeat. intros w'. cbn [perform].
      unfold SCR_GrenadeComponent.OnThrow. rewrite L. cbn [negb].
      now rewrite SendEvent_Print.
    + rewrite run_repeat_skip; [now rewrite app_nil_r|].
      intros w'. cbn [perform].
      unfold SCR_GrenadeComponent.OnThrow. now rewrite L.
  - destruct (SCR_CharacterDamageManagerComponent.IsLocalPlayer g owner) eqn:L.
    + apply run_repeat. intros w'. cbn [perform].
      unfold SCR_CharacterDamageManagerComponent_OnHeal.OnHeal. rewrite L.
      cbn [negb]. cbv zeta. now rewrite SendEvent_Print.
    + rewrite run_repeat_skip; [now rewrite app_nil_r|].
      intros w'. cbn [perform].
      unfold SCR_CharacterDamageManagerComponent_OnHeal.OnHeal. now rewrite L.
Qed.

(** X10: what the two proximity hooks emit, in every case.  Without a
    controlled entity, nothing.  An explosion farther than 50 from the
    player emits nothing, any other (also one at a NaN distance) exactly one
    [explosion_nearby] with the bearing of the explosion and the intensity
    clamped from [10 - distance / 5].  A bullet impact on the player
    themself or farther than 5 emits nothing, any other exactly one
    [bullet_impact_near] with the bearing of the impact and the intensity
    clamped from [5 - distance].  Nothing of the state but the console
    changes. *)
Theorem proximity_events (g : Game) (target : option IEntity)
    (explosionPos impactPos : vector) (w : World) :
  let explosion :=
    SCR_ExplosionDamageManagerComponent_OnExplosion.OnExplosion g explosionPos in
  let impact := SCR_ProjectileComponent.OnImpact g target impactPos in
  let player :=
    match GetPlayerController g with
    | Some playerController => GetControlledEntity playerController
    | None => None
    end in
  sent explosion w =
    match player with
    | None => []
    | Some playerEntity =>
        let distance := vector_Distance explosionPos (GetOrigin playerEntity) in
        if 50 <? distance then []
        else [eventLine "explosion_nearby"
                (SCR_ExplosionDamageManagerComponent.CalculateAngleToPosition
                   playerEntity explosionPos)
                0 (Math_Clamp (10 - distance / 5) 1 10)]
    end /\
  sent impact w =
    match player with
    | None => []
    | Some playerEntity =>
        let distance := vector_Distance impactPos (GetOrigin playerEntity) in
        if entity_eq (ref target) (Some (entityId playerEntity)) then []
        else if 5 <? distance then []
        else [eventLine "bullet_impact_near"
                (SCR_ProjectileComponent.CalculateAngleToImpact
                   playerEntity impactPos)
                0 (Math_Clamp (5 - distance) 1 5)]
    end /\
  sameState w (explosion w) /\ sameState w (impact w).
Proof.
  cbv zeta.
  assert (S1 : forall l, sameState w (Print l w)) by (intros; repeat split).
  assert (S0 : sameState w w) by (repeat split).
  split; [|split; [|split]].
  - destruct (GetPlayerController g) as [pc|] eqn:P.
    2:{ apply sent_none.
        unfold SCR_ExplosionDamageManagerComponent_OnExplosion.OnExplosion.
        now rewrite P. }
    destruct (GetControlledEntity pc) as [e|] eqn:C.
    2:{ apply sent_none.
        unfold SCR_ExplosionDamageManagerComponent_OnExplosion.OnExplosion.
        now rewrite P, C. }
    destruct (50 <? vector_Distance explosionPos (GetOrigin e)) eqn:D.
    + apply sent_none.
      unfold SCR_ExplosionDamageManagerComponent_OnExplosion.OnExplosion.
      rewrite P, C. cbv zeta. now rewrite D.
    + apply sent_one.
      unfold SCR_ExplosionDamageManagerComponent_OnExplosion.OnExplosion.
      rewrite P, C. cbv zeta. rewrite D. now rewrite SendEvent_Print.
  - destruct (GetPlayerController g) as [pc|] eqn:P.
    2:{ apply sent_none. unfold SCR_ProjectileComponent.OnImpact.
        now rewrite P. }
    destruct (GetControlledEntity pc) as [e|] eqn:C.
    2:{ apply sent_none. unfold SCR_ProjectileComponent.OnImpact.
        now rewrite P, C. }
    destruct (entity_eq (ref target) (Some (entityId e))) eqn:T.
    { apply sent_none. unfold SCR_ProjectileComponent.OnImpact.
      now rewrite P, C, T. }
    destruct (5 <? vector_Distance impactPos (GetOrigin e)) eqn:D.
    + apply sent_none. unfold SCR_ProjectileComponent.OnImpact.
      rewrite P, C, T. cbv zeta. now rewrite D.
    + apply sent_one. unfold SCR_ProjectileComponent.OnImpact.
      rewrite P, C, T. cbv zeta. rewrite D. now rewrite SendEvent_Print.
  - unfold SCR_ExplosionDamageManagerComponent_OnExplosion.OnExplosion.
    destruct (GetPlayerController g) as [pc|]; [|exact S0].
    destruct (GetControlledEntity pc) as [e|]; [|exact S0].
    cbv zeta. destruct (50 <? _); [exact S0|].
    rewrite SendEvent_Print. apply S1.
  - unfold SCR_ProjectileComponent.OnImpact.
    destruct (GetPlayerController g) as [pc|]; [|exact S0].
    destruct (GetControlledEntity pc) as [e|]; [|exact S0].
    destruct (entity_eq _ _); [exact S0|].
    cbv zeta. destruct (5 <? _); [exact S0|].
    rewrite SendEvent_Print. apply S1.
Qed.

End OneShotFacts.

(** ** The connection flag *)

Section ConnectionFacts.
Context {host : Host} {lib : HostLibrary}.

Lemma Print_set_s_bConnected line b w :
  Print line (set_s_bConnected b w) = set_s_bConnected b (Print line w).
Proof. reflexivity. Qed.

Lemma perform_set_s_bConnected (c : Call) (b : bool) (w : World) :
  perform c (set_s_bConnected b w) =
  set_s_bConnected (connectedAfter [c] b) (perform c w).
Proof.
  destruct c; cbn [perform connectedAfter].
  - unfold SCR_AISuppressionComponent.OnSuppressionUpdate.
    destruct (negb _); [reflexivity|].
    destruct (suppressionAmount <? 0.1); [reflexivity|]. cbv zeta.
    change (m_fLastSuppressionFeedbackTime (set_s_bConnected b w))
      with (m_fLastSuppressionFeedbackTime w).
    destruct (_ <? SCR_AISuppressionComponent.SUPPRESSION_FEEDBACK_INTERVAL);
      [reflexivity|].
    destruct owner as [o|]; [|reflexivity].
    rewrite !SendEvent_Print. reflexivity.
  - unfold VehicleWheeledSimulation.OnContact.
    destruct (negb _); [reflexivity|]. cbv zeta.
    change (m_fLastCollisionTime (set_s_bConnected b w))
      with (m_fLastCollisionTime w).
    destruct (_ <? VehicleWheeledSimulation.COLLISION_COOLDOWN); [reflexivity|].
    rewrite !SendEvent_Print. reflexivity.
  - unfold SCR_HelicopterControllerComponent.OnUpdate.
    destruct (negb _); [reflexivity|].
    destruct (negb _); [reflexivity|]. cbv zeta.
    change (m_fLastRotorFeedbackTime (set_s_bConnected b w))
      with (m_fLastRotorFeedbackTime w).
    destruct (_ <? SCR_HelicopterControllerComponent.ROTOR_FEEDBACK_INTERVAL);
      [reflexivity|].
    rewrite !SendEvent_Print. reflexivity.
  - unfold SCR_CharacterDamageManagerComponent.OnDamage.
    destruct (negb _); [reflexivity|].
    destruct (damage <=? 0)%Z; [reflexivity|].
    rewrite !SendEvent_Print.
    destruct (healthScaled <=? 0); rewrite !Print_set_s_bConnected;
      reflexivity.
  - unfold SCR_VehicleDamageManagerComponent.OnDamage.
    destruct (negb _); [reflexivity|].
    destruct (damage <=? 0)%Z; [reflexivity|].
    rewrite !SendEvent_Print.
    destruct (healthScaled <=? 0); rewrite !Print_set_s_bConnected;
      reflexivity.
  - unfold SCR_CharacterDamageManagerComponent_OnHeal.OnHeal.
    destruct (negb _); [reflexivity|]. rewrite !SendEvent_Print. reflexivity.
  - unfold SCR_ExplosionDamageManagerComponent_OnExplosion.OnExplosion.
    destruct (GetPlayerController g) as [pc|]; [|reflexivity].
    destruct (GetControlledEntity pc) as [e|]; [|reflexivity].
    cbv zeta. destruct (50 <? _); [reflexivity|].
    rewrite !SendEvent_Print. reflexivity.
  - unfold SCR_ProjectileComponent.OnImpact.
    destruct (GetPlayerController g) as [pc|]; [|reflexivity].
    destruct (GetControlledEntity pc) as [e|]; [|reflexivity].
    destruct (entity_eq _ _); [reflexivity|].
    cbv zeta. destruct (5 <? _); [reflexivity|].
    rewrite !SendEvent_Print. reflexivity.
  - unfold SCR_WeaponComponent.OnWeaponFire.
    destruct (negb _); [reflexivity|]. cbv zeta.
    rewrite !SendEvent_Print. reflexivity.
  - unfold SCR_WeaponComponent.OnReloadComplete.
    destruct (negb _); [reflexivity|]. rewrite !SendEvent_Print. reflexivity.
  - unfold SCR_GrenadeComponent.OnThrow.
    destruct (negb _); [reflexivity|]. rewrite !SendEvent_Print. reflexivity.
  - rewrite !SendEvent_Print. reflexivity.
  - reflexivity.
  - reflexivity.
Qed.

(** X17: the connection flag is never read.  Running any calls from a state
    with the flag set either way gives the same state up to the flag: the
    same lines logged, the same last-emission times; the flag itself ends as
    the last [TryConnect] or [Disconnect] of the run leaves it.  So events
    are logged alike whether the client is connected or not. *)
Theorem connection_flag_is_never_read (calls : list Call) (b : bool)
    (w : World) :
  run calls (set_s_bConnected b w) =
  set_s_bConnected (connectedAfter calls b) (run calls w).
Proof.
  revert b w. induction calls as [|c rest IH]; intros b w; cbn [run].
  - reflexivity.
  - rewrite perform_set_s_bConnected, IH. f_equal.
    destruct c; reflexivity.
Qed.

End ConnectionFacts.

(** ** The mod's instance *)

(** X14: the mod's instance pointer is the instance constructed last, and
    the destructor of any instance clears it: after an instance [a] and then
    an instance [b] are constructed, destroying [a] leaves [GetInstance]
    null although [b] is alive. *)
Theorem destructor_clears_the_singleton (a b : positive)
    (st : ThirdSpaceVestModClass.State) :
  ThirdSpaceVestModClass.GetInstance (ThirdSpaceVestModClass.Construct a st)
    = Some a /\
  ThirdSpaceVestModClass.GetInstance
    (ThirdSpaceVestModClass.Construct b (ThirdSpaceVestModClass.Construct a st))
    = Some b /\
  ThirdSpaceVestModClass.GetInstance
    (ThirdSpaceVestModClass.Destruct a
       (ThirdSpaceVestModClass.Construct b
          (ThirdSpaceVestModClass.Construct a st)))
    = None.
Proof. repeat split. Qed.

(** ** The encoder, once more *)

Lemma append_cancel_l (p x y : string) : p ++ x = p ++ y -> x = y.
Proof.
  induction p as [|c p IH]; cbn [append]; intros H; [exact H|].
  injection H as H. exact (IH H).
Qed.

Lemma length_append (x y : string) :
  String.length (x ++ y) = (String.length x + String.length y)%nat.
Proof.
  induction x as [|c x IH]; cbn [append String.length]; [reflexivity|].
  now rewrite IH.
Qed.

Lemma append_cancel_r (s : string) : forall x y, x ++ s = y ++ s -> x = y.
Proof.
  induction x as [|c x IH]; intros [|d y] H; cbn [append] in H.
  - reflexivity.
  - apply (f_equal String.length) in H. cbn [String.length] in H.
    rewrite length_append in H. lia.
  - apply (f_equal String.length) in H. cbn [String.length] in H.
    rewrite length_append in H. lia.
  - injection H as -> H. f_equal. exact (IH y H).
Qed.

Section EncoderFacts.
Context {host : Host}.

Lemma BuildEventJson_around_type (angle : float) (damage : Z)
    (intensity : float) :
  exists before after,
    forall eventType,
      ThirdSpaceTcpClient.BuildEventJson eventType angle damage intensity =
      before ++ eventType ++ after.
Proof.
  exists ("{" ++ quoted "cmd" ++ ":" ++ quoted "armareforger_event" ++ "," ++
          quoted "event" ++ ":" ++ dq).
  exists (dq ++ "," ++ quoted "angle" ++ ":" ++ float_ToString angle ++ "," ++
          quoted "damage" ++ ":" ++ int_ToString damage ++
          (if 0 <? intensity
           then "," ++ quoted "intensity" ++ ":" ++ float_ToString intensity
           else EmptyString) ++ "}").
  intros eventType. unfold ThirdSpaceTcpClient.BuildEventJson.
  rewrite Format_event, Format_angle, Format_damage, Format_intensity.
  generalize (float_ToString angle) (float_ToString intensity)
             (int_ToString damage).
  intros a i d. unfold quoted.
  destruct (0 <? intensity); repeat rewrite append_assoc; reflexivity.
Qed.

(** X15: the encoder keeps event types apart: with the same angle, damage
    and intensity, two different event types never give the same message,
    whatever characters they hold. *)
Theorem distinct_event_types_give_distinct_messages
    (eventType eventType' : string) (angle : float) (damage : Z)
    (intensity : float) :
  eventType <> eventType' ->
  ThirdSpaceTcpClient.BuildEventJson eventType angle damage intensity <>
  ThirdSpaceTcpClient.BuildEventJson eventType' angle damage intensity.
Proof.
  intros N E. apply N.
  destruct (BuildEventJson_around_type angle damage intensity)
    as (before & after & B).
  rewrite !B in E. apply append_cancel_l in E.
  exact (append_cancel_r _ _ _ E).
Qed.

End EncoderFacts.

(** ** The properties above at concrete inputs *)

Module MoreRuns.
Import SampleHost.

(** X1 at a concrete input: rotor updates of one helicopter at 0.75, 0.8
    and 1, with a shot, a suppression and a collision in between; the
    rotor events are emitted at 0.75 and 1. *)
Lemma throttle_spacing_run :
  let calls :=
    [CallOnUpdate (gameAt 0.75) (Some helicopter) true;
     CallOnWeaponFire (gameAt 0.8) true (Some SampleLibrary.machineGun);
     CallOnUpdate (gameAt 0.8) (Some helicopter) true;
     CallOnSuppressionUpdate (gameAt 0.9) (Some soldier) 0.5 (Vector 0 0 (-5));
     CallOnContact (gameAt 0.95) helicopter bump;
     CallOnUpdate (gameAt 1) (Some helicopter) true] in
  let w := initialWorld true in
  forallb (onComponentsOf 1 2 2) calls = true /\
  emissionTimes (host := sampleHost) (lib := SampleLibrary.sampleLibrary)
    rotorTime calls w = [0.75; 1] /\
  spaced SCR_AISuppressionComponent.SUPPRESSION_FEEDBACK_INTERVAL 0
    (emissionTimes (host := sampleHost) (lib := SampleLibrary.sampleLibrary)
       suppressionTime calls w) /\
  spaced VehicleWheeledSimulation.COLLISION_COOLDOWN 0
    (emissionTimes (host := sampleHost) (lib := SampleLibrary.sampleLibrary)
       collisionTime calls w) /\
  spaced SCR_HelicopterControllerComponent.ROTOR_FEEDBACK_INTERVAL 0
    (emissionTimes (host := sampleHost) (lib := SampleLibrary.sampleLibrary)
       rotorTime calls w).
Proof.
  cbv zeta. split; [reflexivity|]. split; [vm_compute; reflexivity|].
  apply (throttle_spacing (host := sampleHost)
           (lib := SampleLibrary.sampleLibrary) 1 2 2); reflexivity.
Defined.

(** X16 at a concrete input: the local player pilots vehicle 2; the
    controller of another helicopter, entity 7, emits at time 0.75. *)
Lemma rotor_hook_ignores_the_helicopter_run :
  let other :=
    {| entityId := 7%positive;
       GetOrigin := Vector 40 0 10;
       GetYawPitchRoll := Vector 90 0 0;
       FindCompartmentAccess := None |} in
  SCR_HelicopterControllerComponent.IsLocalPlayerPilot
    (gameAt 0.75) (Some helicopter) = true /\
  emit (SCR_HelicopterControllerComponent.OnUpdate (host := sampleHost)
          (gameAt 0.75) (Some other) true) (initialWorld true) = true.
Proof.
  cbv zeta. split; [reflexivity|].
  pose proof (rotor_hook_ignores_the_helicopter (host := sampleHost)
                (gameAt 0.75) helicopter
                {| entityId := 7%positive;
                   GetOrigin := Vector 40 0 10;
                   GetYawPitchRoll := Vector 90 0 0;
                   FindCompartmentAccess := None |}
                (initialWorld true)) as [_ H].
  apply H; reflexivity.
Defined.

(** X3 at a concrete input: the three events are emitted at time 0.75, and
    a second call at 0.75 is dropped. *)
Lemma repeat_at_the_same_time_is_dropped_run :
  let suppression :=
    SCR_AISuppressionComponent.OnSuppressionUpdate (host := sampleHost)
      (gameAt 0.75) (Some soldier) 0.5 (Vector 0 0 (-5)) in
  let collision :=
    VehicleWheeledSimulation.OnContact (host := sampleHost)
      (gameAt 0.75) helicopter bump in
  let rotor :=
    SCR_HelicopterControllerComponent.OnUpdate (host := sampleHost)
      (gameAt 0.75) (Some helicopter) true in
  let w0 := initialWorld true in
  is_finite (GetTime (gameAt 0.75)) = true /\
  (emit suppression w0 = true /\ emit suppression (suppression w0) = false) /\
  (emit collision w0 = true /\ emit collision (collision w0) = false) /\
  (emit rotor w0 = true /\ emit rotor (rotor w0) = false).
Proof.
  cbv zeta.
  destruct (repeat_at_the_same_time_is_dropped (host := sampleHost)
              (gameAt 0.75) (Some soldier) (Some soldier)
              (Some helicopter) helicopter helicopter
              0.5 0.5 (Vector 0 0 (-5)) (Vector 0 0 (-5)) bump bump true true
              (initialWorld true) eq_refl) as (S & C & R).
  split; [reflexivity|].
  split; [|split]; (split; [reflexivity|]).
  - apply S. reflexivity.
  - apply C. reflexivity.
  - apply R. reflexivity.
Defined.

(** X4 at a concrete input: with a NaN clock the three events are emitted
    although the last-emission times are NaN as well. *)
Lemma nan_clock_is_never_throttled_run :
  let w := set_m_fLastRotorFeedbackTime nan
             (set_m_fLastCollisionTime nan
                (set_m_fLastSuppressionFeedbackTime nan (initialWorld true))) in
  is_nan (GetTime (gameAt nan)) = true /\
  emit (SCR_AISuppressionComponent.OnSuppressionUpdate (host := sampleHost)
          (gameAt nan) (Some soldier) 0.5 (Vector 0 0 (-5))) w = true /\
  emit (VehicleWheeledSimulation.OnContact (host := sampleHost)
          (gameAt nan) helicopter bump) w = true /\
  emit (SCR_HelicopterControllerComponent.OnUpdate (host := sampleHost)
          (gameAt nan) (Some helicopter) true) w = true.
Proof.
  cbv zeta. split; [reflexivity|].
  apply (nan_clock_is_never_throttled (host := sampleHost)
           (gameAt nan) (Some soldier) (Some helicopter) helicopter
           0.5 (Vector 0 0 (-5)) bump true).
  reflexivity.
Defined.

(** X7 at a concrete input: an observer lifted by 30 and tilted, and a
    target lowered by 7. *)
Lemma bearing_ignores_height_pitch_roll_run :
  let lifted :=
    {| entityId := 1%positive;
       GetOrigin := Vector 0 30 0;
       GetYawPitchRoll := Vector 0 15 (-20);
       FindCompartmentAccess := Some seat |} in
  SCR_CharacterDamageManagerComponent.CalculateDamageAngle (host := sampleHost)
    (Some lifted) (Vector 3 (-7) 4) =
  SCR_CharacterDamageManagerComponent.CalculateDamageAngle (host := sampleHost)
    (Some soldier) (Vector 3 0 4).
Proof.
  cbv zeta.
  apply (bearing_ignores_height_pitch_roll (host := sampleHost)); reflexivity.
Defined.

(** X15 at a concrete input: a hit and a death of the same bearing and
    damage. *)
Lemma distinct_event_types_give_distinct_messages_run :
  ThirdSpaceTcpClient.BuildEventJson (host := sampleHost)
    "player_damage" 180 20 0 <>
  ThirdSpaceTcpClient.BuildEventJson (host := sampleHost)
    "player_death" 180 20 0.
Proof.
  apply (distinct_event_types_give_distinct_messages (host := sampleHost)).
  apply String.eqb_neq. reflexivity.
Defined.

End MoreRuns.
